(** * helm_llama: a batch-inference harness, embedded and verified

    The script [helm_llama.py] loads a sharded checkpoint, asks helper
    modules for batched prompts, calls the generator on each batch, cuts
    each continuation at its first line break and dumps the mapping
    instance id -> text as JSON.

    The embedding is shallow.  Python built-ins ([str.find], slicing,
    indexing with negative indices, [str] of an int, [sorted], [dict]
    assignment) are Rocq functions.  The script's own control flow lives
    in a small monad: state (the process world) + exceptions + a log of
    observable events.  Every collaborator that is not part of the script
    (torch, fairscale, llama, helm_process, get_datasets, the clock, the
    file system) is a field of a record of externals; the theorems hold
    for all of them. *)

From Stdlib Require Import ZArith String Ascii DecimalString DecimalZ.
From stdpp Require Import gmap strings list sorting.

Local Open Scope Z_scope.
Local Open Scope string_scope.

(** ** Python built-ins used by the script *)

Module Py.

(** The line-feed character and the one-character string ["\n"]. *)
Definition LF : ascii := "010"%char.
Definition newline : string := String LF EmptyString.

(** [len(s)] as a Python int. *)
Definition len_str (s : string) : Z := Z.of_nat (String.length s).
Definition len {A} (l : list A) : Z := Z.of_nat (length l).

(** [s.find(sub)]: the lowest index at which [sub] occurs in [s],
    [-1] when it does not occur. *)
Fixpoint find_from (sub s : string) (i : Z) : Z :=
  if String.prefix sub s then i
  else match s with
       | EmptyString => -1
       | String _ s' => find_from sub s' (i + 1)
       end.

Definition find (s sub : string) : Z := find_from sub s 0.

(** Bounds of a slice [s[lo:hi]]: a negative bound counts from the
    end, and both are clamped to [0 .. len]. *)
Definition clamp (n i : Z) : Z :=
  if bool_decide (i < 0) then Z.max 0 (i + n) else Z.min i n.

(** [s[lo:hi]] on a string. *)
Definition slice (s : string) (lo hi : Z) : string :=
  let n := len_str s in
  let a := clamp n lo in
  let b := clamp n hi in
  substring (Z.to_nat a) (Z.to_nat (b - a)) s.

(** [l[i]]: [None] stands for IndexError.  A negative index counts
    from the end. *)
Definition index {A} (l : list A) (i : Z) : option A :=
  let n := len l in
  if bool_decide (0 <= i < n) then l !! Z.to_nat i
  else if bool_decide (- n <= i < 0) then l !! Z.to_nat (n + i)
  else None.

(** [str(n)] for an int, also what an f-string field [{n}] gives. *)
Definition str (n : Z) : string := NilZero.string_of_int (Z.to_int n).

(** [sorted(paths)] for the paths of one directory: they compare as
    their names, character by character. *)
Definition path_le (p q : string) : Prop := String.leb p q = true.

#[global] Instance path_le_dec p q : Decision (path_le p q).
Proof. unfold path_le. apply _. Defined.

Definition sorted (paths : list string) : list string :=
  merge_sort path_le paths.

(** [c in s] for a character. *)
Fixpoint mem_char (c : ascii) (s : string) : bool :=
  match s with
  | EmptyString => false
  | String c' s' => if Ascii.eqb c' c then true else mem_char c s'
  end.

(** ** Python [dict]: insertion-ordered, one entry per key.

    [json.dump] writes the entries in insertion order, so the order is
    part of what ends up in the file; an association list with the
    update-in-place discipline of [d[k] = v] keeps it. *)
Section Dict.
Context {K V : Type} `{EqDecision K}.

Definition dict := list (K * V).

(** [d[k] = v]: overwrite the value where the key is present (the
    entry keeps its key object and its position), else append. *)
Fixpoint setitem (d : dict) (k : K) (v : V) : dict :=
  match d with
  | [] => [(k, v)]
  | (k', v') :: d' =>
      if decide (k' = k) then (k', v) :: d'
      else (k', v') :: setitem d' k v
  end.

(** [d.get(k)]. *)
Fixpoint getitem (d : dict) (k : K) : option V :=
  match d with
  | [] => None
  | (k', v') :: d' => if decide (k' = k) then Some v' else getitem d' k
  end.

Definition keys (d : dict) : list K := d.*1.
Definition values (d : dict) : list V := d.*2.
End Dict.
Arguments dict : clear implicits.

End Py.

(** ** The process world and the script's monad *)

Section Program.

(** [K]: instance ids (any hashable Python value with its equality);
    [F]: floats; [RT]: everything outside the script that a collaborator
    can read or change (devices, random state, file system, clock);
    [Obj]: opaque Python objects (checkpoint, tokenizer, model, ...). *)
Context {K F RT Obj : Type} `{EqDecision K}.

(** One record of a batch: [{"input": ..., "instance_id": ...}]. *)
Record Rec := { input : string; instance_id : K }.

(** What [print] is given. [PLoaded t1 t0] is the f-string
    [f"Loaded in {t1 - t0:.2f} seconds"]. *)
Inductive Printed :=
| PStr (s : string)
| PInt (n : Z)
| PIds (ids : list K)
| PLoaded (t1 t0 : F).

(** Observable events of a run, in the order they happen. *)
Inductive Event :=
| EvPrint (args : list Printed)
| EvGenerate (generator : Obj) (prompts : list string)
             (max_gen_len : Z) (temperature top_p : F)
| EvJsonDump (path : string) (d : Py.dict K string).

Definition is_print (e : Event) : bool :=
  match e with EvPrint _ => true | _ => false end.
Definition is_generate (e : Event) : bool :=
  match e with EvGenerate _ _ _ _ _ => true | _ => false end.
Definition is_write (e : Event) : bool :=
  match e with EvJsonDump _ _ => true | _ => false end.

Inductive Exc :=
| AssertionError (msg : string)
| KeyError (key : string + Z)
| IndexError
| ValueError
| Raised (callee : string).

(** [stdout_null] is set once [sys.stdout] is the null device. *)
Record World := MkWorld {
  environ : gmap string string;
  stdout_null : bool;
  rt : RT
}.

Record Run (A : Type) := MkRun {
  outcome : Exc + A;
  world : World;
  log : list Event
}.
#[local] Arguments MkRun {A}.
#[local] Arguments outcome {A}.
#[local] Arguments world {A}.
#[local] Arguments log {A}.

Definition M (A : Type) : Type := World -> Run A.

Definition ret {A} (x : A) : M A := fun w => MkRun (inr x) w [].

Definition bind {A B} (m : M A) (f : A -> M B) : M B :=
  fun w =>
    let r := m w in
    match outcome r with
    | inl e => MkRun (inl e) (world r) (log r)
    | inr x =>
        let r' := f x (world r) in
        MkRun (outcome r') (world r') (log r ++ log r')
    end.

Definition raise {A} (e : Exc) : M A := fun w => MkRun (inl e) w [].

#[global] Instance M_ret : MRet M := @ret.
#[global] Instance M_bind : MBind M := fun A B f m => bind m f.

(** A call into a collaborator: it sees and changes [rt] only, and
    either returns or raises. *)
Definition Ext (R : Type) : Type := RT -> option R * RT.

Definition ext {R} (callee : string) (c : Ext R) : M R :=
  fun w =>
    let '(o, rt') := c (rt w) in
    MkRun (match o with Some r => inr r | None => inl (Raised callee) end)
          (MkWorld (environ w) (stdout_null w) rt') [].

Definition emit (e : Event) : M unit := fun w => MkRun (inr tt) w [e].

(** [print(...)]: a console line unless stdout is the null device. *)
Definition print (args : list Printed) : M unit :=
  fun w => MkRun (inr tt) w (if stdout_null w then [] else [EvPrint args]).

Definition set_stdout_null : M unit :=
  fun w => MkRun (inr tt) (MkWorld (environ w) true (rt w)) [].

Definition get_environ : M (gmap string string) :=
  fun w => MkRun (inr (environ w)) w [].

(** [assert c, msg] *)
Definition assert (c : bool) (msg : string) : M unit :=
  if c then mret tt else raise (AssertionError msg).

(** [l[i]] *)
Definition getindex {A} (l : list A) (i : Z) : M A :=
  match Py.index l i with Some x => mret x | None => raise IndexError end.

(** [for x in l: s = body(s, x)] *)
Fixpoint for_each {A S} (l : list A) (body : S -> A -> M S) (s : S) : M S :=
  match l with
  | [] => mret s
  | x :: l' => s' ← body s x; for_each l' body s'
  end.

End Program.

Arguments MkRun {K F RT Obj A}.
Arguments outcome {K F RT Obj A}.
Arguments world {K F RT Obj A}.
Arguments log {K F RT Obj A}.

(** ** Collaborators

    Everything the script calls and does not define.  Each call may
    raise ([None]) and may change the runtime state. *)

Class Externals (K F RT Obj : Type) := {
  (** Python's [int(s)] on a string; [None] is ValueError. *)
  int_of_str : string -> option Z;
  (** [time.time()] *)
  time_time : Ext (RT:=RT) F;
  (** torch and fairscale *)
  init_process_group : string -> Ext (RT:=RT) unit;
  initialize_model_parallel : Z -> Ext (RT:=RT) unit;
  cuda_set_device : Z -> Ext (RT:=RT) unit;
  manual_seed : Z -> Ext (RT:=RT) unit;
  torch_load : string -> Ext (RT:=RT) Obj;
  (** [Path(ckpt_dir).glob("*.pth")], as the paths found *)
  glob_pth : string -> Ext (RT:=RT) (list string);
  (** [open(Path(ckpt_dir) / "params.json").read()] then [json.loads] *)
  read_params : string -> Ext (RT:=RT) Obj;
  (** llama: [Tokenizer(model_path)];
      [ModelArgs(max_seq_len, max_batch_size, **params)] with
      [vocab_size = tokenizer.n_words], then [Transformer(model_args)]
      under the half-precision default tensor type;
      [model.load_state_dict(checkpoint, strict=False)];
      [LLaMA(model, tokenizer)]; [generator.generate(...)] *)
  Tokenizer : string -> Ext (RT:=RT) Obj;
  Transformer : Z -> Z -> Obj -> Obj -> Ext (RT:=RT) Obj;
  load_state_dict : Obj -> Obj -> Ext (RT:=RT) unit;
  LLaMA : Obj -> Obj -> Ext (RT:=RT) Obj;
  generate : Obj -> list string -> Z -> F -> F -> Ext (RT:=RT) (list string);
  (** helm_process *)
  isolate_output : list string -> list string -> Ext (RT:=RT) (list string);
  get_helm_data_list :
    string -> string -> Z -> Obj -> Z -> Z -> Z -> Z ->
    Ext (RT:=RT) (list (list (Rec (K:=K))));
  (** get_datasets *)
  helm_dataset_map : Ext (RT:=RT) (gmap Z string);
  get_prompt_map : Ext (RT:=RT) (gmap Z string);
  get_helm_data_name : string -> Ext (RT:=RT) string;
  get_msmacro_data_list :
    string -> string -> Z -> Obj -> Z -> Z -> Z -> Z ->
    Ext (RT:=RT) (list (list (Rec (K:=K))));
  (** [open(path, "w")] *)
  open_w : string -> Ext (RT:=RT) unit
}.

(** ** The script *)

Section Script.
Context {K F RT Obj : Type} `{EqDecision K} `{!Externals K F RT Obj}.

Abbreviation M := (M (K:=K) (F:=F) (RT:=RT) (Obj:=Obj)).
Abbreviation dict := (Py.dict K string).

(** CLI arguments of [main]. *)
Record Args := {
  ckpt_dir : string;
  tokenizer_path : string;
  temperature : F;
  top_p : F;
  max_seq_len : Z;
  max_batch_size : Z;
  prepend_text : string;
  k : Z;
  num_examples : Z;
  max_new_tokens : Z;
  data_id : Z;
  p_id : Z;
  num_instances : Z
}.

(** [int(os.environ.get(name, -1))] *)
Definition getenv_int (name : string) : M Z :=
  env ← get_environ;
  match env !! name with
  | None => mret (-1)
  | Some s =>
      match int_of_str s with
      | Some n => mret n
      | None => raise ValueError
      end
  end.

(** [os.environ[name]] *)
Definition getenv (name : string) : M string :=
  env ← get_environ;
  match env !! name with
  | Some s => mret s
  | None => raise (KeyError (inl name))
  end.

(** [m()[key]] for a collaborator returning a dict keyed by ints *)
Definition lookup_map (callee : string) (m : Ext (gmap Z string)) (key : Z)
  : M string :=
  table ← ext callee m;
  match table !! key with
  | Some v => mret v
  | None => raise (KeyError (inr key))
  end.

(** lines 21-31 *)
Definition setup_model_parallel : M (Z * Z) :=
  local_rank ← getenv_int "LOCAL_RANK";
  world_size ← getenv_int "WORLD_SIZE";
  ext "torch.distributed.init_process_group" (init_process_group "nccl");;
  ext "initialize_model_parallel" (initialize_model_parallel world_size);;
  ext "torch.cuda.set_device" (cuda_set_device local_rank);;
  ext "torch.manual_seed" (manual_seed 1);;
  mret (local_rank, world_size).

Definition shard_mismatch_msg (found world_size : Z) : string :=
  "Loading a checkpoint for MP=" ++ Py.str found
    ++ " but world size is " ++ Py.str world_size.

(** lines 34-65 *)
Definition load (ckpt_dir tokenizer_path : string)
    (local_rank world_size max_seq_len max_batch_size : Z) : M Obj :=
  start_time ← ext "time.time" time_time;
  found ← ext "Path.glob" (glob_pth ckpt_dir);
  let checkpoints := Py.sorted found in
  assert (bool_decide (world_size = Py.len checkpoints))
         (shard_mismatch_msg (Py.len checkpoints) world_size);;
  ckpt_path ← getindex checkpoints local_rank;
  print [PStr "Loading"];;
  checkpoint ← ext "torch.load" (torch_load ckpt_path);
  params ← ext "json.loads" (read_params ckpt_dir);
  tokenizer ← ext "Tokenizer" (Tokenizer tokenizer_path);
  model ← ext "Transformer"
            (Transformer max_seq_len max_batch_size params tokenizer);
  ext "load_state_dict" (load_state_dict model checkpoint);;
  generator ← ext "LLaMA" (LLaMA model tokenizer);
  now ← ext "time.time" time_time;
  print [PLoaded now start_time];;
  mret generator.

(** lines 132-134: cut [out] at its first line feed, if it has one *)
Definition truncate_at_newline (out : string) : string :=
  let truncate := Py.find out Py.newline in
  if bool_decide (truncate <> -1) then Py.slice out 0 truncate else out.

(** lines 131-135: [for inid, out in zip(instance_ids, outputs)] *)
Definition store_outputs (output_dict : dict)
    (instance_ids : list K) (outputs : list string) : dict :=
  foldl (fun d '(inid, out) => Py.setitem d inid (truncate_at_newline out))
        output_dict (zip instance_ids outputs).

(** [generator.generate(prompts, max_gen_len=..., temperature=..., top_p=...)] *)
Definition call_generate (generator : Obj) (prompts : list string)
    (max_gen_len : Z) (temperature top_p : F) : M (list string) :=
  emit (EvGenerate generator prompts max_gen_len temperature top_p);;
  ext "generate" (generate generator prompts max_gen_len temperature top_p).

(** lines 117-135: one iteration, on the loop state [(i, output_dict)] *)
Definition loop_body (a : Args) (generator : Obj)
    (st : Z * dict) (dict_list : list (Rec (K:=K))) : M (Z * dict) :=
  let '(i, output_dict) := st in
  let prompts := input <$> dict_list in
  let instance_ids := instance_id <$> dict_list in
  results ← call_generate generator prompts
              (max_new_tokens a) (temperature a) (top_p a);
  (if bool_decide (i = 0) then
     print [PStr "instance_id: "; PIds instance_ids];;
     first ← getindex results 0;
     print [PStr "Result (including output): "; PStr first]
   else mret tt);;
  let i := i + Py.len dict_list in
  (if bool_decide (i `mod` 4 = 0) then print [PStr "i: "; PInt i]
   else mret tt);;
  outputs ← ext "isolate_output" (isolate_output prompts results);
  mret (i, store_outputs output_dict instance_ids outputs).

Definition dataset_root : string :=
  "/storage1/chenguangwang/Active/llama_system/helm_datatset_full".
Definition output_dir : string :=
  "/storage1/chenguangwang/Active/llama_system/fs_back".
Definition os_devnull : string := "/dev/null".

(** line 144: the f-string naming the output file *)
Definition output_path (data_name : string) (p_id k num_instances : Z)
  : string :=
  output_dir ++ "/" ++ data_name ++ "_" ++ Py.str p_id ++ "_" ++ Py.str k
    ++ "_samples" ++ Py.str num_instances ++ ".json".

(** lines 68-145 *)
Definition main (a : Args) : M unit :=
  '(local_rank, world_size) ← setup_model_parallel;
  (if bool_decide (local_rank > 0) then
     ext "open" (open_w os_devnull);; set_stdout_null
   else mret tt);;
  print [PStr "local_rank is"; PInt local_rank];;
  print [PStr "world_size is"; PInt world_size];;
  generator ← load (ckpt_dir a) (tokenizer_path a) local_rank world_size
                (max_seq_len a) (max_batch_size a);
  tokenizer ← ext "Tokenizer" (Tokenizer (tokenizer_path a));
  dataset_file ← lookup_map "helm_dataset_map" helm_dataset_map (data_id a);
  prepend_text ← lookup_map "get_prompt_map" get_prompt_map (p_id a);
  let dataset_path := dataset_root ++ "/" ++ dataset_file in
  data_name ← ext "get_helm_data_name" (get_helm_data_name dataset_file);
  input_list_batched ←
    (if bool_decide (data_name ∈ ["msmarco_regular"; "msmarco_trec"]) then
       ext "get_msmacro_data_list"
         (get_msmacro_data_list dataset_path prepend_text (k a) tokenizer
            (max_seq_len a) (num_examples a) (max_batch_size a)
            (num_instances a))
     else
       ext "get_helm_data_list"
         (get_helm_data_list dataset_path prepend_text (k a) tokenizer
            (max_seq_len a) (num_examples a) (max_batch_size a)
            (num_instances a)));
  print [PStr "data name: "; PStr data_name];;
  print [PStr "len of data: "; PInt (Py.len input_list_batched)];;
  model_size ← getenv "MODEL_SIZE";
  print [PStr "Model name: "; PStr model_size];;
  '(i, output_dict) ← for_each input_list_batched (loop_body a generator) (0, []);
  let path := output_path data_name (p_id a) (k a) (num_instances a) in
  ext "open" (open_w path);;
  emit (EvJsonDump path output_dict).

(** ** Phases of [main], for stating properties

    [main] is the sequence of [main_setup] (lines 83-111), the
    generation loop (lines 112-135) and [persist] (lines 142-145);
    lemma [main_phases] below proves it. *)

Definition main_setup (a : Args) : M (Obj * string * list (list (Rec (K:=K)))) :=
  '(local_rank, world_size) ← setup_model_parallel;
  (if bool_decide (local_rank > 0) then
     ext "open" (open_w os_devnull);; set_stdout_null
   else mret tt);;
  print [PStr "local_rank is"; PInt local_rank];;
  print [PStr "world_size is"; PInt world_size];;
  generator ← load (ckpt_dir a) (tokenizer_path a) local_rank world_size
                (max_seq_len a) (max_batch_size a);
  tokenizer ← ext "Tokenizer" (Tokenizer (tokenizer_path a));
  dataset_file ← lookup_map "helm_dataset_map" helm_dataset_map (data_id a);
  prepend_text ← lookup_map "get_prompt_map" get_prompt_map (p_id a);
  let dataset_path := dataset_root ++ "/" ++ dataset_file in
  data_name ← ext "get_helm_data_name" (get_helm_data_name dataset_file);
  input_list_batched ←
    (if bool_decide (data_name ∈ ["msmarco_regular"; "msmarco_trec"]) then
       ext "get_msmacro_data_list"
         (get_msmacro_data_list dataset_path prepend_text (k a) tokenizer
            (max_seq_len a) (num_examples a) (max_batch_size a)
            (num_instances a))
     else
       ext "get_helm_data_list"
         (get_helm_data_list dataset_path prepend_text (k a) tokenizer
            (max_seq_len a) (num_examples a) (max_batch_size a)
            (num_instances a)));
  print [PStr "data name: "; PStr data_name];;
  print [PStr "len of data: "; PInt (Py.len input_list_batched)];;
  model_size ← getenv "MODEL_SIZE";
  print [PStr "Model name: "; PStr model_size];;
  mret (generator, data_name, input_list_batched).

Definition generation_loop (a : Args) (generator : Obj)
    (input_list_batched : list (list (Rec (K:=K)))) : M (Z * dict) :=
  for_each input_list_batched (loop_body a generator) (0, []).

Definition persist (a : Args) (data_name : string) (output_dict : dict)
  : M unit :=
  let path := output_path data_name (p_id a) (k a) (num_instances a) in
  ext "open" (open_w path);;
  emit (EvJsonDump path output_dict).

(** ** Vocabulary of the specification *)

(** The prompts of a batch and its instance ids. *)
Definition prompts_of (dict_list : list (Rec (K:=K))) : list string :=
  input <$> dict_list.
Definition ids_of (dict_list : list (Rec (K:=K))) : list K :=
  instance_id <$> dict_list.

(** Every instance id of every batch, in batch iteration order. *)
Definition ids_seen (batches : list (list (Rec (K:=K)))) : list K :=
  concat (ids_of <$> batches).

(** The occurrences of a run: for each record, in batch iteration
    order, its instance id with the text generated for it, isolated and
    cut at the first line feed.  [None] when a collaborator raises. *)
Fixpoint occurrences (a : Args) (generator : Obj)
    (batches : list (list (Rec (K:=K)))) (r : RT)
  : option (list (K * string)) :=
  match batches with
  | [] => Some []
  | b :: bs =>
      match generate generator (prompts_of b)
              (max_new_tokens a) (temperature a) (top_p a) r with
      | (Some results, r1) =>
          match isolate_output (prompts_of b) results r1 with
          | (Some outputs, r2) =>
              match occurrences a generator bs r2 with
              | Some rest =>
                  Some (zip (ids_of b) (truncate_at_newline <$> outputs)
                          ++ rest)%list
              | None => None
              end
          | (None, _) => None
          end
      | (None, _) => None
      end
  end.

(** The generation calls of a loop over [batches] started in runtime
    state [r]: each call is [generate] on the prompts of its batch with
    the CLI values, made in the state that the previous batch left once
    its call had returned and its results had been isolated.  The value
    is the results of the calls, batch by batch, with the state after
    the last batch; [None] when a collaborator raises. *)
Fixpoint generations (a : Args) (generator : Obj)
    (batches : list (list (Rec (K:=K)))) (r : RT)
  : option (list (list string) * RT) :=
  match batches with
  | [] => Some ([], r)
  | b :: bs =>
      match generate generator (prompts_of b)
              (max_new_tokens a) (temperature a) (top_p a) r with
      | (Some results, r1) =>
          match isolate_output (prompts_of b) results r1 with
          | (Some _, r2) =>
              match generations a generator bs r2 with
              | Some (rest, r') => Some (results :: rest, r')
              | None => None
              end
          | (None, _) => None
          end
      | (None, _) => None
      end
  end.

(** The text of the last occurrence of [id]. *)
Fixpoint last_text (pairs : list (K * string)) (id : K) : option string :=
  match pairs with
  | [] => None
  | (k', v) :: rest =>
      match last_text rest id with
      | Some t => Some t
      | None => if decide (k' = id) then Some v else None
      end
  end.

(** [d[k] = v] for a pair [(k, v)]. *)
Definition assign (d : dict) (p : K * string) : dict :=
  Py.setitem d p.1 p.2.

(** The distinct elements of [l] in the order of their first
    appearance. *)
Definition first_seen (l : list K) : list K :=
  foldl (fun acc x => if decide (x ∈ acc) then acc else acc ++ [x])%list [] l.

(** The generation requests of a log, in order. *)
Definition generate_calls (l : list (Event (K:=K) (F:=F) (Obj:=Obj)))
  : list (Obj * list string * Z * F * F) :=
  omap (fun e => match e with
                 | EvGenerate g ps n t p => Some (g, ps, n, t, p)
                 | _ => None
                 end) l.

(** The files written by a log, in order. *)
Definition writes (l : list (Event (K:=K) (F:=F) (Obj:=Obj)))
  : list (string * dict) :=
  omap (fun e => match e with
                 | EvJsonDump path d => Some (path, d)
                 | _ => None
                 end) l.

(** The console lines of a log, in order. *)
Definition console (l : list (Event (K:=K) (F:=F) (Obj:=Obj)))
  : list (list (Printed (K:=K) (F:=F))) :=
  omap (fun e => match e with EvPrint args => Some args | _ => None end) l.

(** A string without line feed. *)
Definition newline_free (s : string) : Prop := Py.mem_char Py.LF s = false.

(** The contract of the two collaborators of the loop: one result per
    prompt and one isolated output per result. *)
Definition generate_contract : Prop :=
  forall g ps n t p r results r',
    generate g ps n t p r = (Some results, r') ->
    length results = length ps.

Definition isolate_output_contract : Prop :=
  forall ps results r outputs r',
    length results = length ps ->
    isolate_output ps results r = (Some outputs, r') ->
    length outputs = length ps.

Definition one_output_per_prompt : Prop :=
  generate_contract /\ isolate_output_contract.

End Script.

(** ** Properties of computations *)

Section Properties.
Context {K F RT Obj : Type} `{EqDecision K} `{!Externals K F RT Obj}.

(** [m] keeps the world invariant [I] and logs only events in [P]. *)
Definition preserves (I : World (RT:=RT) -> Prop)
    (P : Event (K:=K) (F:=F) (Obj:=Obj) -> Prop)
    {A} (m : M (K:=K) (F:=F) (RT:=RT) (Obj:=Obj) A) : Prop :=
  forall w, I w -> I (world (m w)) /\ Forall P (log (m w)).

(** Every exception [m] can raise satisfies [Q]. *)
Definition raises_only (Q : Exc -> Prop)
    {A} (m : M (K:=K) (F:=F) (RT:=RT) (Obj:=Obj) A) : Prop :=
  forall w e, outcome (m w) = inl e -> Q e.

(** A collaborator raised. *)
Definition is_raised (e : Exc) : Prop :=
  match e with Raised _ => True | _ => False end.

(** An [assert] of the script failed. *)
Definition is_assertion (e : Exc) : Prop :=
  match e with AssertionError _ => True | _ => False end.

(** The log without its console lines: generation requests and file
    writes. *)
Definition effects (l : list (Event (K:=K) (F:=F) (Obj:=Obj)))
  : list (Event (K:=K) (F:=F) (Obj:=Obj)) :=
  filter (fun e => is_print e = false) l.

(** Two worlds that agree on everything but the value of MODEL_SIZE,
    which is set in both. *)
Definition low_equiv (w1 w2 : World (RT:=RT)) : Prop :=
  rt w1 = rt w2 /\
  stdout_null w1 = stdout_null w2 /\
  (forall name, name <> "MODEL_SIZE" ->
                environ w1 !! name = environ w2 !! name) /\
  is_Some (environ w1 !! "MODEL_SIZE") /\
  is_Some (environ w2 !! "MODEL_SIZE").

(** Two runs that differ at most in what they print. *)
Definition run_equiv {A} (r1 r2 : Run (K:=K) (F:=F) (RT:=RT) (Obj:=Obj) A)
  : Prop :=
  outcome r1 = outcome r2 /\
  low_equiv (world r1) (world r2) /\
  effects (log r1) = effects (log r2).

Definition noninterfering {A} (m : M (K:=K) (F:=F) (RT:=RT) (Obj:=Obj) A)
  : Prop :=
  forall w1 w2, low_equiv w1 w2 -> run_equiv (m w1) (m w2).

(** The world [w] with MODEL_SIZE set to [v]. *)
Definition with_model_size (w : World (RT:=RT)) (v : string) : World (RT:=RT) :=
  MkWorld (<["MODEL_SIZE" := v]> (environ w)) (stdout_null w) (rt w).

(** The arguments [a] with [text] passed for [prepend_text]. *)
Definition with_prepend_text (a : Args (F:=F)) (text : string) : Args (F:=F) :=
  {| ckpt_dir := ckpt_dir a;
     tokenizer_path := tokenizer_path a;
     temperature := temperature a;
     top_p := top_p a;
     max_seq_len := max_seq_len a;
     max_batch_size := max_batch_size a;
     prepend_text := text;
     k := k a;
     num_examples := num_examples a;
     max_new_tokens := max_new_tokens a;
     data_id := data_id a;
     p_id := p_id a;
     num_instances := num_instances a |}.

(** What a generation request for batch [b] looks like. *)
Definition request_for (a : Args (F:=F)) (generator : Obj)
    (b : list (Rec (K:=K))) : Obj * list string * Z * F * F :=
  (generator, prompts_of b, max_new_tokens a, temperature a, top_p a).

End Properties.

(** ** A small concrete deployment

    Two shards, a toy generator that answers every prompt with an echo
    followed by a second line, and a dataset of two batches in which the
    instance id ["x"] occurs twice.  It is used to run the definitions
    above on concrete inputs. *)

Module Demo.

Definition digit_of (c : ascii) : option Z :=
  let n := Z.of_nat (nat_of_ascii c) in
  if bool_decide (48 <= n <= 57) then Some (n - 48) else None.

Fixpoint digits (s : string) (acc : Z) : option Z :=
  match s with
  | EmptyString => Some acc
  | String c s' =>
      match digit_of c with
      | Some d => digits s' (10 * acc + d)
      | None => None
      end
  end.

(** Plain decimal numerals with an optional sign are all the demo needs
    of [int(s)]. *)
Definition parse_int (s : string) : option Z :=
  match s with
  | EmptyString => None
  | String "-" EmptyString => None
  | String "-" s' => Z.opp <$> digits s' 0
  | _ => digits s 0
  end.

Definition answer (prompt : string) : string :=
  prompt ++ " re:" ++ prompt ++ Py.newline ++ "second line".

Definition strip_prompt (prompt result : string) : string :=
  Py.slice result (Py.len_str prompt) (Py.len_str result).

Definition batches : list (list (Rec (K:=string))) :=
  [ [ {| input := "Q1"; instance_id := "x" |};
      {| input := "Q2"; instance_id := "y" |} ];
    [ {| input := "Q3"; instance_id := "x" |} ] ].

Definition succeed {R} (x : R) : Ext (RT:=nat) R := fun r => (Some x, r).

#[global] Instance externals : Externals string Z nat string := {|
  int_of_str := parse_int;
  time_time := fun r => (Some (Z.of_nat r), r);
  init_process_group := fun _ => succeed tt;
  initialize_model_parallel := fun _ => succeed tt;
  cuda_set_device := fun _ => succeed tt;
  manual_seed := fun _ => succeed tt;
  torch_load := fun path => succeed path;
  glob_pth := fun dir =>
    succeed [dir ++ "/consolidated.01.pth"; dir ++ "/consolidated.00.pth"];
  read_params := fun dir => succeed (dir ++ "/params.json");
  Tokenizer := fun path => succeed path;
  Transformer := fun _ _ params _ => succeed params;
  load_state_dict := fun _ _ => succeed tt;
  LLaMA := fun _ _ => succeed "generator";
  generate := fun _ prompts _ _ _ r => (Some (answer <$> prompts), S r);
  isolate_output := fun prompts results =>
    succeed (zip_with strip_prompt prompts results);
  get_helm_data_list := fun _ _ _ _ _ _ _ _ => succeed batches;
  helm_dataset_map := succeed {[ 0 := "boolq.jsonl" ]};
  get_prompt_map := succeed {[ 0 := "Answer yes or no." ]};
  get_helm_data_name := fun _ => succeed "boolq";
  get_msmacro_data_list := fun _ _ _ _ _ _ _ _ => succeed batches;
  open_w := fun _ => succeed tt
|}.

Definition args : Args (F:=Z) := {|
  ckpt_dir := "/ckpt/7B";
  tokenizer_path := "/ckpt/tokenizer.model";
  temperature := 0;
  top_p := 1;
  max_seq_len := 2048;
  max_batch_size := 2;
  prepend_text := "";
  k := 5;
  num_examples := 5;
  max_new_tokens := 100;
  data_id := 0;
  p_id := 0;
  num_instances := 0
|}.

Definition env (rank : string) : gmap string string :=
  {[ "LOCAL_RANK" := rank; "WORLD_SIZE" := "2"; "MODEL_SIZE" := "7B" ]}.

Definition world0 (rank : string) : World (RT:=nat) :=
  MkWorld (env rank) false 0%nat.


(** The same process started without MODEL_SIZE, and one started with
    three ranks where there are two shards. *)
Definition world_without_model_size : World (RT:=nat) :=
  MkWorld {[ "LOCAL_RANK" := "0"; "WORLD_SIZE" := "2" ]} false 0%nat.

Definition world_three_ranks : World (RT:=nat) :=
  MkWorld {[ "LOCAL_RANK" := "0"; "WORLD_SIZE" := "3"; "MODEL_SIZE" := "7B" ]}
          false 0%nat.

(** Other datasets: one whose first batch is empty, one with distinct
    instance ids. *)
Definition batches_empty_first : list (list (Rec (K:=string))) :=
  [ []; [ {| input := "Q3"; instance_id := "x" |} ] ].

Definition batches_unique : list (list (Rec (K:=string))) :=
  [ [ {| input := "Q1"; instance_id := "x" |};
      {| input := "Q2"; instance_id := "y" |} ];
    [ {| input := "Q3"; instance_id := "z" |} ] ].

(** The demo collaborators over another dataset, with an output
    directory that may not be writable. *)
Definition externals_with (data : list (list (Rec (K:=string))))
    (writable : bool) : Externals string Z nat string := {|
  int_of_str := parse_int;
  time_time := fun r => (Some (Z.of_nat r), r);
  init_process_group := fun _ => succeed tt;
  initialize_model_parallel := fun _ => succeed tt;
  cuda_set_device := fun _ => succeed tt;
  manual_seed := fun _ => succeed tt;
  torch_load := fun path => succeed path;
  glob_pth := fun dir =>
    succeed [dir ++ "/consolidated.01.pth"; dir ++ "/consolidated.00.pth"];
  read_params := fun dir => succeed (dir ++ "/params.json");
  Tokenizer := fun path => succeed path;
  Transformer := fun _ _ params _ => succeed params;
  load_state_dict := fun _ _ => succeed tt;
  LLaMA := fun _ _ => succeed "generator";
  generate := fun _ prompts _ _ _ r => (Some (answer <$> prompts), S r);
  isolate_output := fun prompts results =>
    succeed (zip_with strip_prompt prompts results);
  get_helm_data_list := fun _ _ _ _ _ _ _ _ => succeed data;
  helm_dataset_map := succeed {[ 0 := "boolq.jsonl" ]};
  get_prompt_map := succeed {[ 0 := "Answer yes or no." ]};
  get_helm_data_name := fun _ => succeed "boolq";
  get_msmacro_data_list := fun _ _ _ _ _ _ _ _ => succeed data;
  open_w := fun _ r => (if writable then Some tt else None, r)
|}.

(** What the demo run writes. *)
Definition written_path : string :=
  "/storage1/chenguangwang/Active/llama_system/fs_back/boolq_0_5_samples0.json".
Definition written_dict : Py.dict string string :=
  [("x", " re:Q3"); ("y", " re:Q2")].

End Demo.

(** * Facts *)

(** ** Python built-ins *)

Section PyFacts.

Lemma prefix_newline_cons c s :
  String.prefix Py.newline (String c s) = Ascii.eqb c Py.LF.
Proof.
  change (String.prefix Py.newline (String c s))
    with (if ascii_dec Py.LF c then String.prefix "" s else false).
  destruct (ascii_dec Py.LF c) as [<-|Hne].
  - rewrite Ascii.eqb_refl. by destruct s.
  - symmetry. apply Ascii.eqb_neq. congruence.
Qed.

Lemma find_from_newline_none s i :
  Py.mem_char Py.LF s = false -> Py.find_from Py.newline s i = -1.
Proof.
  revert i. induction s as [|c s IH]; intros i Hs; [done|].
  cbn [Py.find_from]. rewrite prefix_newline_cons.
  cbn [Py.mem_char] in Hs. destruct (Ascii.eqb c Py.LF); [done|].
  by apply IH.
Qed.

Lemma find_from_newline_split s i :
  Py.mem_char Py.LF s = true ->
  exists pre post,
    s = pre ++ String Py.LF post /\
    Py.mem_char Py.LF pre = false /\
    Py.find_from Py.newline s i = i + Py.len_str pre.
Proof.
  revert i. induction s as [|c s IH]; intros i Hs; [done|].
  cbn [Py.find_from]. rewrite prefix_newline_cons.
  cbn [Py.mem_char] in Hs.
  destruct (Ascii.eqb c Py.LF) eqn:Hc.
  - apply Ascii.eqb_eq in Hc as ->.
    exists "", s. repeat split. unfold Py.len_str. simpl. lia.
  - destruct (IH (i + 1) Hs) as (pre & post & -> & Hpre & Hfind).
    exists (String c pre), post. repeat split.
    + cbn [Py.mem_char]. by rewrite Hc.
    + rewrite Hfind. unfold Py.len_str. cbn [String.length]. lia.
Qed.

Lemma substring_app_prefix pre rest :
  substring 0 (String.length pre) (pre ++ rest) = pre.
Proof.
  induction pre as [|c pre IH]; simpl.
  - by destruct rest.
  - by rewrite IH.
Qed.

Lemma length_app_string s t :
  String.length (s ++ t) = (String.length s + String.length t)%nat.
Proof. induction s as [|c s IH]; simpl; [done|]. by rewrite IH. Qed.

Lemma slice_prefix pre rest :
  Py.slice (pre ++ rest) 0 (Py.len_str pre) = pre.
Proof.
  unfold Py.slice, Py.clamp, Py.len_str. rewrite length_app_string.
  rewrite bool_decide_false by lia. rewrite bool_decide_false by lia.
  replace (Z.min 0 _) with 0 by lia.
  replace (Z.min _ _) with (Z.of_nat (String.length pre)) by lia.
  rewrite Z.sub_0_r, Nat2Z.id. apply substring_app_prefix.
Qed.

Lemma mem_char_app c s t :
  Py.mem_char c (s ++ t) = Py.mem_char c s || Py.mem_char c t.
Proof.
  induction s as [|c' s IH]; simpl; [done|].
  rewrite IH. by destruct (Ascii.eqb c' c).
Qed.

Lemma index_in_range {A} (l : list A) (i : Z) :
  - Py.len l <= i < Py.len l -> is_Some (Py.index l i).
Proof.
  unfold Py.index, Py.len. intros Hi.
  destruct (decide (0 <= i)) as [Hpos|Hneg].
  - rewrite bool_decide_true by lia. apply lookup_lt_is_Some. lia.
  - rewrite bool_decide_false by lia. rewrite bool_decide_true by lia.
    apply lookup_lt_is_Some. lia.
Qed.

Lemma index_out_of_range {A} (l : list A) (i : Z) :
  ~ (- Py.len l <= i < Py.len l) -> Py.index l i = None.
Proof.
  unfold Py.index, Py.len. intros Hi.
  rewrite bool_decide_false by lia. by rewrite bool_decide_false by lia.
Qed.


Lemma length_sorted paths : length (Py.sorted paths) = length paths.
Proof.
  unfold Py.sorted. apply Permutation_length, merge_sort_Permutation.
Qed.

Lemma omap_nil_Forall {A B} (f : A -> option B) (l : list A) :
  Forall (fun x => f x = None) l -> omap f l = [].
Proof.
  induction 1 as [|x l Hx _ IH]; [done|].
  change (omap f (x :: l)) with (from_option (fun y => y :: omap f l) (omap f l) (f x)).
  by rewrite Hx.
Qed.

End PyFacts.

(** ** The insertion-ordered dict *)

Section DictFacts.
Context {K V : Type} `{EqDecision K}.
Implicit Types (d : Py.dict K V) (k : K) (v : V).

Lemma getitem_setitem d k v k' :
  Py.getitem (Py.setitem d k v) k'
  = if decide (k = k') then Some v else Py.getitem d k'.
Proof.
  induction d as [|[k0 v0] d IH]; simpl.
  - repeat case_decide; congruence.
  - destruct (decide (k0 = k)) as [->|Hne]; simpl.
    + repeat case_decide; congruence.
    + rewrite IH. repeat case_decide; congruence.
Qed.

Lemma elem_of_keys_setitem d k v k' :
  k' ∈ Py.keys (Py.setitem d k v) <-> k' = k \/ k' ∈ Py.keys d.
Proof.
  unfold Py.keys. induction d as [|[k0 v0] d IH]; simpl.
  - rewrite list_elem_of_singleton, elem_of_nil. tauto.
  - destruct (decide (k0 = k)) as [->|Hne]; simpl.
    + rewrite !elem_of_cons. tauto.
    + rewrite !elem_of_cons, IH. tauto.
Qed.

Lemma NoDup_keys_setitem d k v :
  NoDup (Py.keys d) -> NoDup (Py.keys (Py.setitem d k v)).
Proof.
  unfold Py.keys. induction d as [|[k0 v0] d IH]; simpl; intros Hnd.
  - apply NoDup_singleton.
  - apply NoDup_cons in Hnd as [Hk0 Hnd].
    destruct (decide (k0 = k)) as [->|Hne]; simpl.
    + by apply NoDup_cons.
    + apply NoDup_cons. split; [|by apply IH].
      intros Hin. apply (elem_of_keys_setitem d k v k0) in Hin.
      destruct Hin as [?|?]; [congruence|done].
Qed.


Lemma getitem_is_Some d k : is_Some (Py.getitem d k) <-> k ∈ Py.keys d.
Proof.
  unfold Py.keys. induction d as [|[k0 v0] d IH]; simpl.
  - split; [by intros [? ?]|by intros ?%elem_of_nil].
  - rewrite elem_of_cons. destruct (decide (k0 = k)) as [->|Hne].
    + split; [by left|by eexists].
    + rewrite IH. split; [by right|]. intros [?|?]; [congruence|done].
Qed.

Lemma getitem_Some_elem d k v : Py.getitem d k = Some v -> (k, v) ∈ d.
Proof.
  induction d as [|[k0 v0] d IH]; simpl; [done|].
  destruct (decide (k0 = k)) as [->|Hne].
  - intros [= ->]. apply elem_of_cons. by left.
  - intros Hget. apply elem_of_cons. right. by apply IH.
Qed.

Lemma elem_getitem_Some d k v :
  NoDup (Py.keys d) -> (k, v) ∈ d -> Py.getitem d k = Some v.
Proof.
  unfold Py.keys. induction d as [|[k0 v0] d IH]; simpl.
  - by intros _ ?%elem_of_nil.
  - intros [Hk0 Hnd]%NoDup_cons [Heq|Hin]%elem_of_cons.
    + injection Heq as -> ->. by rewrite decide_True.
    + destruct (decide (k0 = k)) as [->|Hne]; [|by apply IH].
      exfalso. apply Hk0. apply list_elem_of_fmap. by exists (k, v).
Qed.

End DictFacts.

(** ** The monad: equations, inversion, and what a computation logs *)

Local Open Scope list_scope.

Section MonadFacts.
Context {K F RT Obj : Type} `{EqDecision K} `{!Externals K F RT Obj}.

Abbreviation M := (M (K:=K) (F:=F) (RT:=RT) (Obj:=Obj)).
Abbreviation Event := (Event (K:=K) (F:=F) (Obj:=Obj)).

Lemma bind_unfold {A B} (m : M A) (f : A -> M B) w :
  (m ≫= f) w
  = match outcome (m w) with
    | inl e => MkRun (inl e) (world (m w)) (log (m w))
    | inr x =>
        MkRun (outcome (f x (world (m w)))) (world (f x (world (m w))))
              (log (m w) ++ log (f x (world (m w))))
    end.
Proof. reflexivity. Qed.

Lemma run_eta {A} (r : Run (K:=K) (F:=F) (RT:=RT) (Obj:=Obj) A) :
  MkRun (outcome r) (world r) (log r) = r.
Proof. by destruct r. Qed.

Lemma bind_ok_inv {A B} (m : M A) (f : A -> M B) w y :
  outcome ((m ≫= f) w) = inr y ->
  exists x,
    outcome (m w) = inr x /\
    outcome (f x (world (m w))) = inr y /\
    world ((m ≫= f) w) = world (f x (world (m w))) /\
    log ((m ≫= f) w) = log (m w) ++ log (f x (world (m w))).
Proof.
  rewrite bind_unfold. destruct (outcome (m w)) as [e|x]; [done|].
  simpl. intros Hy. by exists x.
Qed.

Lemma bind_ok {A B} (m : M A) (f : A -> M B) w x :
  outcome (m w) = inr x ->
  (m ≫= f) w
  = MkRun (outcome (f x (world (m w)))) (world (f x (world (m w))))
          (log (m w) ++ log (f x (world (m w)))).
Proof. intros Hx. by rewrite bind_unfold, Hx. Qed.

Lemma bind_err {A B} (m : M A) (f : A -> M B) w e :
  outcome (m w) = inl e ->
  (m ≫= f) w = MkRun (inl e) (world (m w)) (log (m w)).
Proof. intros He. by rewrite bind_unfold, He. Qed.

(** An exception raised by a step is the outcome of the whole sequence:
    nothing in the monad catches. *)
Lemma bind_propagates {A B} (m : M A) (f : A -> M B) w e :
  outcome (m w) = inl e -> outcome ((m ≫= f) w) = inl e.
Proof. intros He. by rewrite (bind_err _ _ _ _ He). Qed.

Lemma bind_assoc_pt {A B C} (m : M A) (f : A -> M B) (g : B -> M C) w :
  ((m ≫= f) ≫= g) w = (m ≫= (fun x => f x ≫= g)) w.
Proof.
  rewrite !bind_unfold. destruct (outcome (m w)) as [e|x]; simpl; [done|].
  rewrite !bind_unfold.
  destruct (outcome (f x (world (m w)))) as [e|y]; simpl; [done|].
  by rewrite app_assoc.
Qed.

Lemma bind_ext_pt {A B} (m : M A) (f g : A -> M B) w :
  (forall x w', f x w' = g x w') -> (m ≫= f) w = (m ≫= g) w.
Proof.
  intros Hfg. rewrite !bind_unfold.
  destruct (outcome (m w)); [done|]. by rewrite Hfg.
Qed.

Lemma ret_bind {A B} (x : A) (f : A -> M B) w : (mret x ≫= f) w = f x w.
Proof. rewrite bind_unfold. simpl. apply run_eta. Qed.

Lemma if_bind {A B} (c : bool) (m1 m2 : M A) (f : A -> M B) w :
  ((if c then m1 else m2) ≫= f) w
  = (if c then m1 ≫= f else m2 ≫= f) w.
Proof. by destruct c. Qed.

End MonadFacts.

Section PhaseFacts.
Context {K F RT Obj : Type} `{EqDecision K} `{!Externals K F RT Obj}.

(** [main] is its three phases in sequence. *)
Lemma main_phases (a : Args) w :
  main a w
  = ('(generator, data_name, input_list_batched) ← main_setup a;
     '(i, output_dict) ← generation_loop a generator input_list_batched;
     persist a data_name output_dict) w.
Proof.
  unfold main, main_setup, generation_loop, persist.
  symmetry.
  repeat (etrans; [apply bind_assoc_pt|]; apply bind_ext_pt; intros).
  destruct x as [lr ws].
  repeat (etrans; [apply bind_assoc_pt|]; apply bind_ext_pt; intros).
  by rewrite ret_bind.
Qed.

End PhaseFacts.

(** ** Invariants of the world and of the log, rule by rule *)

Section Invariant.
Context {K F RT Obj : Type} `{EqDecision K} `{!Externals K F RT Obj}.
Variable I : World (RT:=RT) -> Prop.
Variable P : Event (K:=K) (F:=F) (Obj:=Obj) -> Prop.

(** Collaborators change [rt] only; the script itself changes
    [stdout_null] only, and only to [true]. *)
Hypothesis I_rt : forall w r, I w -> I (MkWorld (environ w) (stdout_null w) r).
Hypothesis I_null : forall w, I w -> I (MkWorld (environ w) true (rt w)).
(** A line that reaches the console is allowed by [P]. *)
Hypothesis P_print : forall w args, I w -> stdout_null w = false -> P (EvPrint args).

Lemma preserves_ret {A} (x : A) : preserves I P (mret x).
Proof. intros w Hw. simpl. by split. Qed.

Lemma preserves_raise {A} e : preserves I P (raise (A:=A) e).
Proof. intros w Hw. simpl. by split. Qed.

Lemma preserves_bind {A B} (m : M A) (f : A -> M B) :
  preserves I P m -> (forall x, preserves I P (f x)) -> preserves I P (m ≫= f).
Proof.
  intros Hm Hf w Hw. rewrite bind_unfold.
  destruct (Hm w Hw) as [Hw1 Hl1].
  destruct (outcome (m w)) as [e|x]; simpl; [done|].
  destruct (Hf x _ Hw1) as [Hw2 Hl2].
  split; [done|]. by apply Forall_app.
Qed.

Lemma preserves_ext {R} callee (c : Ext R) : preserves I P (ext callee c).
Proof.
  intros w Hw. unfold ext. destruct (c (rt w)) as [o r]. simpl.
  split; [by apply I_rt|done].
Qed.

Lemma preserves_print args : preserves I P (print args).
Proof.
  intros w Hw. unfold print. simpl. split; [done|].
  destruct (stdout_null w) eqn:Hnull; [done|].
  apply Forall_singleton. by eapply P_print.
Qed.

Lemma preserves_emit e : P e -> preserves I P (emit e).
Proof. intros He w Hw. simpl. split; [done|]. by apply Forall_singleton. Qed.

Lemma preserves_set_stdout_null : preserves I P set_stdout_null.
Proof. intros w Hw. simpl. split; [by apply I_null|done]. Qed.

Lemma preserves_get_environ : preserves I P get_environ.
Proof. intros w Hw. simpl. by split. Qed.

Lemma preserves_assert c msg : preserves I P (assert c msg).
Proof. destruct c; [apply preserves_ret|apply preserves_raise]. Qed.

Lemma preserves_getindex {A} (l : list A) i : preserves I P (getindex l i).
Proof.
  unfold getindex. destruct (Py.index l i); [apply preserves_ret|apply preserves_raise].
Qed.

Lemma preserves_for_each {A S} (l : list A) (body : S -> A -> M S) s :
  (forall s x, preserves I P (body s x)) -> preserves I P (for_each l body s).
Proof.
  intros Hbody. revert s. induction l as [|x l IH]; intros s; simpl.
  - apply preserves_ret.
  - apply preserves_bind; [apply Hbody|apply IH].
Qed.

Lemma preserves_getenv_int name : preserves I P (getenv_int name).
Proof.
  unfold getenv_int. apply preserves_bind; [apply preserves_get_environ|].
  intros env. destruct (env !! name) as [s|]; [|apply preserves_ret].
  destruct (int_of_str s); [apply preserves_ret|apply preserves_raise].
Qed.

Lemma preserves_getenv name : preserves I P (getenv name).
Proof.
  unfold getenv. apply preserves_bind; [apply preserves_get_environ|].
  intros env. destruct (env !! name); [apply preserves_ret|apply preserves_raise].
Qed.

Lemma preserves_lookup_map callee m key : preserves I P (lookup_map callee m key).
Proof.
  unfold lookup_map. apply preserves_bind; [apply preserves_ext|].
  intros t. destruct (t !! key); [apply preserves_ret|apply preserves_raise].
Qed.

End Invariant.

(** One step of a proof that a straight-line computation preserves an
    invariant: split a sequence, or close a primitive step.  [side]
    proves the side conditions on the invariant. *)
Ltac preserves_step side :=
  first
    [ apply preserves_ret
    | apply preserves_raise
    | apply preserves_ext; side
    | apply preserves_print; side
    | apply preserves_set_stdout_null; side
    | apply preserves_get_environ
    | apply preserves_assert
    | apply preserves_getindex
    | apply preserves_getenv_int
    | apply preserves_getenv
    | apply preserves_lookup_map; side
    | apply preserves_emit; side
    | apply preserves_bind; [|intros]
    | match goal with
      | |- preserves _ _ (if ?c then _ else _) => destruct c
      | |- preserves _ _ (let '(_, _) := ?p in _) => destruct p
      | |- preserves _ _ (match ?p with (_, _) => _ end) => destruct p
      end ].

Section InvariantScript.
Context {K F RT Obj : Type} `{EqDecision K} `{!Externals K F RT Obj}.
Variable I : World (RT:=RT) -> Prop.
Variable P : Event (K:=K) (F:=F) (Obj:=Obj) -> Prop.
Hypothesis I_rt : forall w r, I w -> I (MkWorld (environ w) (stdout_null w) r).
Hypothesis I_null : forall w, I w -> I (MkWorld (environ w) true (rt w)).
Hypothesis P_print : forall w args, I w -> stdout_null w = false -> P (EvPrint args).

Lemma preserves_setup_model_parallel : preserves I P setup_model_parallel.
Proof using I_rt.
  unfold setup_model_parallel. repeat preserves_step ltac:(solve [auto]).
Qed.

Lemma preserves_load ckpt tok lr ws msl mbs :
  preserves I P (load ckpt tok lr ws msl mbs).
Proof using I_rt P_print.
  unfold load. repeat preserves_step ltac:(solve [eauto]).
Qed.

Lemma preserves_main_setup a : preserves I P (main_setup a).
Proof using I_rt I_null P_print.
  unfold main_setup. repeat preserves_step ltac:(solve [eauto]).
  all: solve [by apply preserves_setup_model_parallel
             |by apply preserves_load].
Qed.

Hypothesis P_generate : forall g ps n t p, P (EvGenerate g ps n t p).

Lemma preserves_loop_body a g st b : preserves I P (loop_body a g st b).
Proof using I_rt P_print P_generate.
  unfold loop_body, call_generate. repeat preserves_step ltac:(solve [eauto]).
Qed.

Lemma preserves_generation_loop a g bs : preserves I P (generation_loop a g bs).
Proof using I_rt P_print P_generate.
  unfold generation_loop. apply preserves_for_each.
  intros. apply preserves_loop_body.
Qed.

End InvariantScript.

(** ** The generation loop *)

Section LoopFacts.
Context {K F RT Obj : Type} `{EqDecision K} `{!Externals K F RT Obj}.
Implicit Types (a : Args (F:=F)) (g : Obj) (b : list (Rec (K:=K)))
  (bs : list (list (Rec (K:=K)))) (d : Py.dict K string)
  (w : World (RT:=RT)).

(** A collaborator call that returns. *)
Lemma ext_ok {R} callee (c : Ext R) w (x : R) :
  outcome (ext (K:=K) (F:=F) (Obj:=Obj) callee c w) = inr x ->
  exists r', c (rt w) = (Some x, r') /\
             world (ext (K:=K) (F:=F) (Obj:=Obj) callee c w)
             = MkWorld (environ w) (stdout_null w) r'.
Proof.
  unfold ext. destruct (c (rt w)) as [[y|] r']; simpl; [|done].
  intros [= ->]. by exists r'.
Qed.

Lemma call_generate_ok g ps n t p w results :
  outcome (call_generate g ps n t p w) = inr results ->
  exists r1, generate g ps n t p (rt w) = (Some results, r1) /\
             world (call_generate g ps n t p w)
             = MkWorld (environ w) (stdout_null w) r1.
Proof.
  unfold call_generate. rewrite bind_unfold. cbn [emit outcome world].
  apply ext_ok.
Qed.

Lemma call_generate_log g ps n t p w :
  log (call_generate g ps n t p w) = [EvGenerate g ps n t p].
Proof.
  unfold call_generate. rewrite bind_unfold. cbn [emit outcome world log].
  unfold ext. by destruct (generate g ps n t p (rt w)) as [[y|] r'].
Qed.

(** The lines of an iteration between the request and the isolation
    only print: they leave the world as it is. *)
Lemma world_print args w : world (print (K:=K) (F:=F) (Obj:=Obj) args w) = w.
Proof. done. Qed.

Lemma world_first_result i ids (results : list string) w :
  world ((if bool_decide (i = 0) then
            print [PStr "instance_id: "; PIds ids] ≫= fun _ =>
            getindex results 0 ≫= fun first =>
            print (K:=K) (F:=F) (Obj:=Obj)
              [PStr "Result (including output): "; PStr first]
          else mret tt) w) = w.
Proof.
  case_bool_decide; [|done]. rewrite bind_unfold. cbn [print outcome world].
  rewrite bind_unfold. unfold getindex.
  by destruct (Py.index results 0).
Qed.

Lemma world_progress (c : bool) args w :
  world ((if c then print (K:=K) (F:=F) (Obj:=Obj) args else mret tt) w) = w.
Proof. by destruct c. Qed.

(** A successful iteration: the generator answered, the outputs were
    isolated, and the loop state moved on by the batch. *)
Lemma loop_body_ok a g i d b w i' d' :
  outcome (loop_body a g (i, d) b w) = inr (i', d') ->
  exists results r1 outputs,
    generate g (prompts_of b) (max_new_tokens a) (temperature a) (top_p a) (rt w)
      = (Some results, r1) /\
    isolate_output (prompts_of b) results r1
      = (Some outputs, rt (world (loop_body a g (i, d) b w))) /\
    i' = i + Py.len b /\
    d' = store_outputs d (ids_of b) outputs.
Proof.
  unfold loop_body. fold (prompts_of b) (ids_of b).
  intros Hok.
  destruct (bind_ok_inv _ _ _ _ Hok) as (results & Hgen & Hrest & Hw0 & _).
  rewrite Hw0. clear Hw0 Hok.
  apply call_generate_ok in Hgen as (r1 & Hgen & Hw1).
  rewrite Hw1 in *. clear Hw1.
  exists results, r1.
  destruct (bind_ok_inv _ _ _ _ Hrest) as ([] & _ & Hrest2 & Hw2 & _).
  rewrite Hw2. clear Hw2 Hrest.
  rewrite world_first_result in *.
  destruct (bind_ok_inv _ _ _ _ Hrest2) as ([] & _ & Hrest3 & Hw3 & _).
  rewrite Hw3. clear Hw3 Hrest2.
  rewrite world_progress in *.
  destruct (bind_ok_inv _ _ _ _ Hrest3) as (outputs & Hiso & Hret & Hw4 & _).
  rewrite Hw4. clear Hw4 Hrest3.
  apply ext_ok in Hiso as (r2 & Hiso & Hw5).
  rewrite Hw5 in *. clear Hw5.
  injection Hret as <- <-. exists outputs. by repeat split.
Qed.

(** Each iteration makes exactly one generation request, for its batch,
    before anything else, whether or not the iteration completes. *)
Lemma loop_body_generate_calls a g st b w :
  generate_calls (log (loop_body a g st b w)) = [request_for a g b].
Proof.
  destruct st as [i d]. unfold loop_body. fold (prompts_of b) (ids_of b).
  rewrite bind_unfold, call_generate_log.
  destruct (outcome (call_generate _ _ _ _ _ w)) as [e|results]; [done|].
  cbn [log]. unfold generate_calls at 1. rewrite omap_app.
  change (omap _ [EvGenerate ?g' ?ps ?n ?t ?p]) with [(g', ps, n, t, p)].
  match goal with
  | |- context [log (?rest ?w1)] =>
      assert (Hp : preserves (fun _ => True) (fun e => is_generate e = false) rest)
  end.
  { repeat preserves_step ltac:(solve [eauto]). }
  match goal with
  | |- context [log (?rest ?w1)] => destruct (Hp w1 Logic.I) as [_ Hall]
  end.
  erewrite omap_nil_Forall; [done|].
  eapply Forall_impl; [exact Hall|]. by intros [].
Qed.


(** The requests of the loop are those of its batches, in order; a loop
    that stops early has made a prefix of them. *)
Lemma loop_generate_calls a g bs st w :
  generate_calls (log (for_each bs (loop_body a g) st w))
    `prefix_of` (request_for a g <$> bs) /\
  (forall st', outcome (for_each bs (loop_body a g) st w) = inr st' ->
     generate_calls (log (for_each bs (loop_body a g) st w))
     = request_for a g <$> bs).
Proof.
  revert st w. induction bs as [|b bs IH]; intros st w.
  - simpl. split; [done|]. by intros.
  - cbn [for_each fmap list_fmap]. rewrite bind_unfold.
    pose proof (loop_body_generate_calls a g st b w) as Hb.
    destruct (outcome (loop_body a g st b w)) as [e|st1]; simpl.
    + rewrite Hb. split; [|done].
      apply prefix_cons, prefix_nil.
    + unfold generate_calls in *. rewrite omap_app, Hb.
      destruct (IH st1 (world (loop_body a g st b w))) as [Hpre Heq].
      split.
      * by apply prefix_cons.
      * intros st' Hok. simpl. f_equal. by apply (Heq st').
Qed.

(** ** From the loop to the mapping *)

Lemma store_outputs_assign d ids outs :
  store_outputs d ids outs
  = foldl assign d (zip ids (truncate_at_newline <$> outs)).
Proof.
  unfold store_outputs. revert d outs.
  induction ids as [|id ids IH]; intros d [|out outs]; simpl; auto.
Qed.

Lemma getitem_foldl_assign d pairs id :
  Py.getitem (foldl assign d pairs) id
  = match last_text pairs id with
    | Some t => Some t
    | None => Py.getitem d id
    end.
Proof.
  revert d. induction pairs as [|[k0 v0] pairs IH]; intros d; simpl; [done|].
  rewrite IH. destruct (last_text pairs id); [done|].
  unfold assign. simpl. rewrite getitem_setitem. by case_decide.
Qed.

Lemma elem_of_keys_foldl_assign d pairs id :
  id ∈ Py.keys (foldl assign d pairs) <-> id ∈ Py.keys d \/ id ∈ pairs.*1.
Proof.
  revert d. induction pairs as [|[k0 v0] pairs IH]; intros d; simpl.
  - rewrite elem_of_nil. tauto.
  - rewrite IH. unfold assign at 1. simpl.
    rewrite elem_of_keys_setitem, elem_of_cons. tauto.
Qed.

Lemma NoDup_keys_foldl_assign d pairs :
  NoDup (Py.keys d) -> NoDup (Py.keys (foldl assign d pairs)).
Proof.
  revert d. induction pairs as [|[k0 v0] pairs IH]; intros d Hd; simpl; [done|].
  apply IH. by apply NoDup_keys_setitem.
Qed.


(** The mapping built by the loop is the occurrences of the run,
    assigned in order. *)
Lemma loop_occurrences a g bs i d w i' d' :
  outcome (for_each bs (loop_body a g) (i, d) w) = inr (i', d') ->
  exists pairs,
    occurrences a g bs (rt w) = Some pairs /\ d' = foldl assign d pairs.
Proof.
  revert i d w. induction bs as [|b bs IH]; intros i d w.
  - simpl. intros [= <- <-]. by exists [].
  - cbn [for_each occurrences].
    intros ([i1 d1] & Hb & Hrest & _)%bind_ok_inv.
    apply loop_body_ok in Hb as (results & r1 & outputs & Hgen & Hiso & -> & ->).
    apply IH in Hrest as (rest & Hocc & ->).
    rewrite Hgen, Hiso, Hocc. eexists. split; [done|].
    by rewrite foldl_app, store_outputs_assign.
Qed.

(** With one output per prompt, the occurrences are the records. *)
Lemma occurrences_ids a g bs r pairs :
  one_output_per_prompt ->
  occurrences a g bs r = Some pairs -> pairs.*1 = ids_seen bs.
Proof.
  intros [Hgen Hiso]. revert r pairs.
  induction bs as [|b bs IH]; intros r pairs; simpl.
  - by intros [= <-].
  - destruct (generate _ _ _ _ _ r) as [[results|] r1] eqn:Hg; [|done].
    destruct (isolate_output _ _ r1) as [[outputs|] r2] eqn:Hi; [|done].
    destruct (occurrences a g bs r2) as [rest|] eqn:Hocc; [|done].
    intros [= <-]. rewrite fmap_app, (IH _ _ Hocc).
    unfold ids_seen. simpl. f_equal.
    apply fst_zip. rewrite length_fmap.
    apply Hgen in Hg. apply (Hiso _ _ _ _ _ Hg) in Hi.
    unfold ids_of, prompts_of in *. rewrite !length_fmap in *. lia.
Qed.

End LoopFacts.

(** ** Runs of [main], phase by phase *)

Section MainFacts.
Context {K F RT Obj : Type} `{EqDecision K} `{!Externals K F RT Obj}.
Implicit Types (a : Args (F:=F)) (g : Obj) (b : list (Rec (K:=K)))
  (bs : list (list (Rec (K:=K)))) (d : Py.dict K string)
  (w : World (RT:=RT)).

Lemma persist_cases a dn d w :
  (outcome (persist a dn d w) = inr tt /\
   log (persist a dn d w)
   = [EvJsonDump (output_path dn (p_id a) (k a) (num_instances a)) d]) \/
  (outcome (persist a dn d w) = inl (Raised "open") /\
   log (persist a dn d w) = []).
Proof.
  unfold persist, ext, emit, mbind, M_bind, bind. simpl.
  destruct (open_w _ (rt w)) as [[[]|] r]; simpl; [by left|by right].
Qed.

(** A failing setup is the whole run. *)
Lemma main_setup_fails a w e :
  outcome (main_setup a w) = inl e ->
  outcome (main a w) = inl e /\ log (main a w) = log (main_setup a w).
Proof.
  intros He. rewrite main_phases, (bind_err _ _ _ _ He). by split.
Qed.

(** A failing loop ends the run after the setup. *)
Lemma main_loop_fails a w g dn bs e :
  outcome (main_setup a w) = inr (g, dn, bs) ->
  outcome (generation_loop a g bs (world (main_setup a w))) = inl e ->
  outcome (main a w) = inl e /\
  log (main a w)
  = log (main_setup a w)
      ++ log (generation_loop a g bs (world (main_setup a w))).
Proof.
  intros Hs He. rewrite main_phases, (bind_ok _ _ _ _ Hs). simpl.
  rewrite (bind_err _ _ _ _ He). by split.
Qed.

(** After a completed loop the run is setup, loop, persist. *)
Lemma main_loop_done a w g dn bs i d :
  outcome (main_setup a w) = inr (g, dn, bs) ->
  outcome (generation_loop a g bs (world (main_setup a w))) = inr (i, d) ->
  let w2 := world (generation_loop a g bs (world (main_setup a w))) in
  outcome (main a w) = outcome (persist a dn d w2) /\
  log (main a w)
  = log (main_setup a w)
      ++ log (generation_loop a g bs (world (main_setup a w)))
      ++ log (persist a dn d w2).
Proof.
  intros Hs Hl. rewrite main_phases, (bind_ok _ _ _ _ Hs). simpl.
  rewrite (bind_ok _ _ _ _ Hl). by split.
Qed.

(** A run that completes went through the three phases, and its last
    event is the dump of the mapping the loop built. *)
Lemma main_ok_inv a w :
  outcome (main a w) = inr tt ->
  exists g dn bs i d,
    outcome (main_setup a w) = inr (g, dn, bs) /\
    outcome (generation_loop a g bs (world (main_setup a w))) = inr (i, d) /\
    log (main a w)
    = log (main_setup a w)
        ++ log (generation_loop a g bs (world (main_setup a w)))
        ++ [EvJsonDump (output_path dn (p_id a) (k a) (num_instances a)) d].
Proof.
  intros Hok.
  destruct (outcome (main_setup a w)) as [e|[[g dn] bs]] eqn:Hs.
  { apply main_setup_fails in Hs as [Hs _]. congruence. }
  destruct (outcome (generation_loop a g bs (world (main_setup a w))))
    as [e|[i d]] eqn:Hl.
  { destruct (main_loop_fails _ _ _ _ _ _ Hs Hl) as [Hf _]. congruence. }
  destruct (main_loop_done _ _ _ _ _ _ _ Hs Hl) as [Ho Hlog].
  exists g, dn, bs, i, d. repeat split; try done.
  rewrite Hlog. destruct (persist_cases a dn d
    (world (generation_loop a g bs (world (main_setup a w)))))
    as [[_ ->]|[Hp _]]; [done|congruence].
Qed.

(** The setup and the loop write no file. *)
Lemma writes_main_setup a w : writes (log (main_setup a w)) = [].
Proof.
  assert (Hp : preserves (fun _ => True) (fun e => is_write e = false)
                 (main_setup a)) by (by apply preserves_main_setup).
  destruct (Hp w Logic.I) as [_ Hall]. unfold writes.
  eapply omap_nil_Forall, Forall_impl; [exact Hall|]. by intros [].
Qed.

Lemma writes_generation_loop a g bs w : writes (log (generation_loop a g bs w)) = [].
Proof.
  assert (Hp : preserves (fun _ => True) (fun e => is_write e = false)
                 (generation_loop a g bs)) by (by apply preserves_generation_loop).
  destruct (Hp w Logic.I) as [_ Hall]. unfold writes.
  eapply omap_nil_Forall, Forall_impl; [exact Hall|]. by intros [].
Qed.

(** The setup asks for no generation. *)
Lemma generate_calls_main_setup a w : generate_calls (log (main_setup a w)) = [].
Proof.
  assert (Hp : preserves (fun _ => True) (fun e => is_generate e = false)
                 (main_setup a)) by (by apply preserves_main_setup).
  destruct (Hp w Logic.I) as [_ Hall]. unfold generate_calls.
  eapply omap_nil_Forall, Forall_impl; [exact Hall|]. by intros [].
Qed.

(** The files written by a run: none when it fails, and the one dump of
    the loop's mapping when it completes. *)
Lemma main_writes a w :
  (writes (log (main a w)) = [] /\ outcome (main a w) <> inr tt) \/
  (exists g dn bs i d,
     outcome (main_setup a w) = inr (g, dn, bs) /\
     outcome (generation_loop a g bs (world (main_setup a w))) = inr (i, d) /\
     outcome (main a w) = inr tt /\
     writes (log (main a w))
     = [(output_path dn (p_id a) (k a) (num_instances a), d)]).
Proof.
  destruct (outcome (main_setup a w)) as [e|[[g dn] bs]] eqn:Hs.
  { left. apply main_setup_fails in Hs as [Ho ->].
    rewrite writes_main_setup, Ho. by split. }
  destruct (outcome (generation_loop a g bs (world (main_setup a w))))
    as [e|[i d]] eqn:Hl.
  { left. destruct (main_loop_fails _ _ _ _ _ _ Hs Hl) as [Ho ->].
    unfold writes. rewrite omap_app. fold (writes (log (main_setup a w))).
    fold (writes (log (generation_loop a g bs (world (main_setup a w))))).
    rewrite writes_main_setup, writes_generation_loop, Ho. by split. }
  destruct (main_loop_done _ _ _ _ _ _ _ Hs Hl) as [Ho Hlog].
  assert (Hw : writes (log (main a w))
               = writes (log (persist a dn d
                   (world (generation_loop a g bs (world (main_setup a w))))))).
  { rewrite Hlog. unfold writes. rewrite !omap_app.
    fold (writes (log (main_setup a w))).
    fold (writes (log (generation_loop a g bs (world (main_setup a w))))).
    by rewrite writes_main_setup, writes_generation_loop. }
  destruct (persist_cases a dn d
    (world (generation_loop a g bs (world (main_setup a w)))))
    as [[Hp Hpl]|[Hp Hpl]].
  - right. exists g, dn, bs, i, d. rewrite Hw, Hpl, Ho, Hp. by repeat split.
  - left. rewrite Hw, Hpl, Ho, Hp. by split.
Qed.

End MainFacts.

(** ** Truncation at the first line feed *)

Section Truncation.

Lemma truncate_no_newline out :
  newline_free out -> truncate_at_newline out = out.
Proof.
  unfold newline_free, truncate_at_newline, Py.find. intros Hfree.
  rewrite (find_from_newline_none _ _ Hfree).
  by rewrite bool_decide_false by (intros Hne; by apply Hne).
Qed.

Lemma truncate_first_newline out :
  ~ newline_free out ->
  exists pre post,
    out = (pre ++ Py.newline ++ post)%string /\
    newline_free pre /\
    truncate_at_newline out = pre.
Proof.
  unfold newline_free, truncate_at_newline, Py.find. intros Hnl.
  apply not_false_is_true in Hnl.
  destruct (find_from_newline_split out 0 Hnl) as (pre & post & -> & Hpre & Hfind).
  exists pre, post. repeat split; [done|].
  rewrite Hfind, bool_decide_true by (unfold Py.len_str; lia).
  rewrite Z.add_0_l. apply slice_prefix.
Qed.

Lemma truncate_newline_free out : newline_free (truncate_at_newline out).
Proof.
  destruct (Py.mem_char Py.LF out) eqn:Hm.
  - destruct (truncate_first_newline out) as (pre & post & _ & Hpre & ->);
      [unfold newline_free; congruence|done].
  - by rewrite truncate_no_newline.
Qed.

End Truncation.

(** * The claims *)

Section Claims.
Context {K F RT Obj : Type} `{EqDecision K} `{!Externals K F RT Obj}.
Implicit Types (a : Args (F:=F)) (g : Obj) (b : list (Rec (K:=K)))
  (bs : list (list (Rec (K:=K)))) (d : Py.dict K string)
  (w : World (RT:=RT)).




(** [last_text] is the text of the last pair with that key. *)
Lemma last_text_None (pairs : list (K * string)) id :
  last_text pairs id = None <-> id ∉ pairs.*1.
Proof.
  induction pairs as [|[k0 v0] pairs IH]; simpl.
  - split; [intros _; apply not_elem_of_nil|done].
  - rewrite not_elem_of_cons, <- IH.
    destruct (last_text pairs id); [naive_solver|].
    case_decide; naive_solver.
Qed.

Lemma last_text_Some (pairs : list (K * string)) id v :
  last_text pairs id = Some v <->
  exists before after, pairs = before ++ (id, v) :: after /\ id ∉ after.*1.
Proof.
  split.
  - induction pairs as [|[k0 v0] pairs IH]; simpl; [done|].
    destruct (last_text pairs id) as [t|] eqn:Hlast.
    + intros [= ->]. destruct (IH eq_refl) as (l1 & l2 & -> & Hl2).
      by exists ((k0, v0) :: l1), l2.
    + case_decide; [|done]. intros [= ->]. subst k0.
      exists [], pairs. split; [done|]. by apply last_text_None.
  - intros (l1 & l2 & -> & Hl2). apply last_text_None in Hl2.
    induction l1 as [|[k0 v0] l1 IH]; simpl.
    + rewrite Hl2. by rewrite decide_True.
    + by rewrite IH.
Qed.

(** C2. When a run completes, the mapping in the output file has
    exactly one entry per distinct instance id of the batches, and the
    text of an id is the one of its last occurrence in batch iteration
    order.  The two collaborators of the loop are taken to give one
    result per prompt and one output per result. *)
Theorem one_entry_per_instance_id a w g dn bs :
  one_output_per_prompt ->
  outcome (main_setup a w) = inr (g, dn, bs) ->
  outcome (main a w) = inr tt ->
  exists d pairs,
    writes (log (main a w))
    = [(output_path dn (p_id a) (k a) (num_instances a), d)] /\
    occurrences a g bs (rt (world (main_setup a w))) = Some pairs /\
    pairs.*1 = ids_seen bs /\
    NoDup (Py.keys d) /\
    (forall id, id ∈ Py.keys d <-> id ∈ ids_seen bs) /\
    (forall id, Py.getitem d id = last_text pairs id) /\
    (forall id v,
       (id, v) ∈ d <->
       exists before after,
         pairs = before ++ (id, v) :: after /\ id ∉ after.*1).
Proof.
  intros Hcontract Hs Hok.
  destruct (main_writes a w)
    as [[_ Hne]|(g' & dn' & bs' & i & d & Hs' & Hl & _ & Hw)]; [done|].
  rewrite Hs in Hs'. injection Hs' as <- <- <-.
  unfold generation_loop in Hl.
  apply loop_occurrences in Hl as (pairs & Hocc & ->).
  pose proof (occurrences_ids _ _ _ _ _ Hcontract Hocc) as Hids.
  assert (Hnd : NoDup (Py.keys (foldl assign ([] : Py.dict K string) pairs)))
    by apply NoDup_keys_foldl_assign, NoDup_nil_2.
  assert (Hget : forall id,
             Py.getitem (foldl assign ([] : Py.dict K string) pairs) id
             = last_text pairs id).
  { intros id. rewrite getitem_foldl_assign. by destruct (last_text pairs id). }
  exists (foldl assign [] pairs), pairs. repeat split; try done.
  - intros Hin. apply elem_of_keys_foldl_assign in Hin as [Hin|Hin].
    + by apply elem_of_nil in Hin.
    + by rewrite <- Hids.
  - intros Hin. apply elem_of_keys_foldl_assign. right. by rewrite Hids.
  - intros Hin. apply last_text_Some. rewrite <- Hget.
    by apply elem_getitem_Some.
  - intros Hlast. apply getitem_Some_elem. rewrite Hget.
    by apply last_text_Some.
Qed.


End Claims.

(** ** Running a sequence step by step, and what it can raise *)

Section Steps.
Context {K F RT Obj : Type} `{EqDecision K} `{!Externals K F RT Obj}.
Implicit Types (w : World (RT:=RT)).

Abbreviation M := (M (K:=K) (F:=F) (RT:=RT) (Obj:=Obj)).

Lemma bind_step {A B} (m : M A) (f : A -> M B) w x w' l :
  m w = MkRun (inr x) w' l ->
  (m ≫= f) w = MkRun (outcome (f x w')) (world (f x w')) (l ++ log (f x w')).
Proof. intros Hm. rewrite bind_unfold, Hm. done. Qed.

Lemma bind_stop {A B} (m : M A) (f : A -> M B) w e w' l :
  m w = MkRun (inl e) w' l -> (m ≫= f) w = MkRun (inl e) w' l.
Proof. intros Hm. rewrite bind_unfold, Hm. done. Qed.

Lemma ext_returns {R} callee (c : Ext R) w (x : R) r' :
  c (rt w) = (Some x, r') ->
  ext (K:=K) (F:=F) (Obj:=Obj) callee c w
  = MkRun (inr x) (MkWorld (environ w) (stdout_null w) r') [].
Proof. intros Hc. unfold ext. by rewrite Hc. Qed.

Lemma ext_raises {R} callee (c : Ext R) w r' :
  c (rt w) = (None, r') ->
  ext (K:=K) (F:=F) (Obj:=Obj) callee c w
  = MkRun (inl (Raised callee)) (MkWorld (environ w) (stdout_null w) r') [].
Proof. intros Hc. unfold ext. by rewrite Hc. Qed.

Variable Q : Exc -> Prop.

Lemma raises_only_ret {A} (x : A) : raises_only Q (mret x : M A).
Proof. by intros w e. Qed.

Lemma raises_only_raise {A} e : Q e -> raises_only Q (raise e : M A).
Proof. intros He w e' [= <-]. done. Qed.

Lemma raises_only_bind {A B} (m : M A) (f : A -> M B) :
  raises_only Q m -> (forall x, raises_only Q (f x)) -> raises_only Q (m ≫= f).
Proof.
  intros Hm Hf w e. rewrite bind_unfold.
  destruct (outcome (m w)) as [e'|x] eqn:Ho; simpl.
  - intros [= <-]. by apply (Hm w).
  - apply Hf.
Qed.

Lemma raises_only_ext {R} callee (c : Ext R) :
  Q (Raised callee) -> raises_only Q (ext callee c : M R).
Proof.
  intros Hq w e. unfold ext. destruct (c (rt w)) as [[x|] r]; simpl; [done|].
  by intros [= <-].
Qed.

Lemma raises_only_print args : raises_only Q (print args : M unit).
Proof. by intros w e. Qed.

Lemma raises_only_emit ev : raises_only Q (emit ev : M unit).
Proof. by intros w e. Qed.

Lemma raises_only_set_stdout_null : raises_only Q (set_stdout_null : M unit).
Proof. by intros w e. Qed.

Lemma raises_only_assert c msg :
  (c = false -> Q (AssertionError msg)) -> raises_only Q (assert c msg : M unit).
Proof.
  destruct c; intros Hq; [apply raises_only_ret|by apply raises_only_raise, Hq].
Qed.

Lemma raises_only_getindex {A} (l : list A) i :
  (Py.index l i = None -> Q IndexError) -> raises_only Q (getindex l i : M A).
Proof.
  unfold getindex. destruct (Py.index l i); intros Hq;
    [apply raises_only_ret|by apply raises_only_raise, Hq].
Qed.

Lemma raises_only_for_each {A S} (l : list A) (body : S -> A -> M S) s :
  (forall s x, raises_only Q (body s x)) -> raises_only Q (for_each l body s).
Proof.
  intros Hbody. revert s. induction l as [|x l IH]; intros s; simpl.
  - apply raises_only_ret.
  - apply raises_only_bind; [apply Hbody|apply IH].
Qed.

Lemma raises_only_getenv_int name :
  Q ValueError -> raises_only Q (getenv_int name : M Z).
Proof.
  intros Hq w e. unfold getenv_int, get_environ. rewrite bind_unfold. simpl.
  destruct (environ w !! name) as [s|]; simpl; [|done].
  destruct (int_of_str s); simpl; [done|]. by intros [= <-].
Qed.

Lemma raises_only_getenv name :
  Q (KeyError (inl name)) -> raises_only Q (getenv name : M string).
Proof.
  intros Hq w e. unfold getenv, get_environ. rewrite bind_unfold. simpl.
  destruct (environ w !! name) as [s|]; simpl; [done|]. by intros [= <-].
Qed.

Lemma raises_only_lookup_map callee m key :
  Q (Raised callee) -> Q (KeyError (inr key)) ->
  raises_only Q (lookup_map callee m key : M string).
Proof.
  intros Hc Hk. unfold lookup_map.
  apply raises_only_bind; [by apply raises_only_ext|].
  intros t. destruct (t !! key); [apply raises_only_ret|by apply raises_only_raise].
Qed.

End Steps.

(** One step of a proof that a computation raises only exceptions in
    [Q]; [side] shows that an exception is in [Q]. *)
Ltac raises_only_step side :=
  first
    [ apply raises_only_ret
    | apply raises_only_print
    | apply raises_only_emit
    | apply raises_only_set_stdout_null
    | apply raises_only_raise; side
    | apply raises_only_ext; side
    | apply raises_only_assert; side
    | apply raises_only_getindex; side
    | apply raises_only_getenv_int; side
    | apply raises_only_getenv; side
    | apply raises_only_lookup_map; side
    | apply raises_only_for_each; intros
    | apply raises_only_bind; [|intros]
    | match goal with
      | |- raises_only _ (if ?c then _ else _) => destruct c
      | |- raises_only _ (let '(_, _) := ?p in _) => destruct p
      | |- raises_only _ (match ?p with (_, _) => _ end) => destruct p
      end ].

(** Run the collaborator call at the head of a sequence, given what
    it answers. *)
Ltac step_ext H :=
  erewrite bind_step; [|apply ext_returns; exact H]; cbn beta.
Ltac stop_ext H :=
  erewrite bind_stop; [|apply ext_raises; exact H].
Ltac step_ext_in H He :=
  erewrite bind_step in He; [|apply ext_returns; exact H]; cbn beta in He.
Ltac stop_ext_in H He :=
  erewrite bind_stop in He; [|apply ext_raises; exact H].

(** ** Loading the checkpoint *)

Section Loading.
Context {K F RT Obj : Type} `{EqDecision K} `{!Externals K F RT Obj}.
Implicit Types (a : Args (F:=F)) (w : World (RT:=RT)).

Abbreviation M := (M (K:=K) (F:=F) (RT:=RT) (Obj:=Obj)).

(** [load] up to its assertion: the clock, the shard listing, the
    comparison. *)
Lemma load_assertion_fails ckpt tok lr ws msl mbs w t0 r1 found r2 :
  time_time (rt w) = (Some t0, r1) ->
  glob_pth ckpt r1 = (Some found, r2) ->
  Py.len found <> ws ->
  load ckpt tok lr ws msl mbs w
  = MkRun (inl (AssertionError (shard_mismatch_msg (Py.len found) ws)))
          (MkWorld (environ w) (stdout_null w) r2) [].
Proof.
  intros Ht Hg Hne. unfold load.
  step_ext Ht.
  step_ext Hg.
  unfold Py.len in *. rewrite length_sorted.
  rewrite bool_decide_false by congruence.
  rewrite (bind_stop (assert false _) _ _ _ _ [] eq_refl).
  done.
Qed.

(** With equal counts [load] goes on; it can still fail at the shard
    lookup or in a collaborator, not at an assertion. *)
Lemma load_past_assertion ckpt tok lr ws msl mbs w t0 r1 found r2 e :
  time_time (rt w) = (Some t0, r1) ->
  glob_pth ckpt r1 = (Some found, r2) ->
  Py.len found = ws ->
  outcome (load ckpt tok lr ws msl mbs w) = inl e ->
  (e = IndexError /\ Py.index (Py.sorted found) lr = None) \/ is_raised e.
Proof.
  intros Ht Hg Hlen. unfold load.
  step_ext Ht.
  step_ext Hg.
  unfold Py.len in *. rewrite length_sorted.
  rewrite bool_decide_true by congruence.
  cbn [outcome]. intros He.
  refine ((_ : raises_only
                 (fun e => (e = IndexError /\ Py.index (Py.sorted found) lr = None)
                           \/ is_raised e) _) _ e He).
  repeat raises_only_step ltac:(solve [simpl; auto]).
Qed.

Lemma load_before_glob ckpt tok lr ws msl mbs w e :
  outcome (load ckpt tok lr ws msl mbs w) = inl e ->
  is_assertion e ->
  exists t0 r1 found r2,
    time_time (rt w) = (Some t0, r1) /\ glob_pth ckpt r1 = (Some found, r2).
Proof.
  unfold load. intros He Hassert.
  destruct (time_time (rt w)) as [[t0|] r1] eqn:Ht.
  2:{ stop_ext_in Ht He.
      injection He as <-. done. }
  step_ext_in Ht He.
  destruct (glob_pth ckpt r1) as [[found|] r2] eqn:Hg.
  2:{ stop_ext_in Hg He.
      injection He as <-. done. }
  by exists t0, r1, found, r2.
Qed.

Lemma load_assertion_iff ckpt tok lr ws msl mbs w :
  (exists msg, outcome (load ckpt tok lr ws msl mbs w) = inl (AssertionError msg))
  <->
  (exists t0 r1 found r2,
      time_time (rt w) = (Some t0, r1) /\
      glob_pth ckpt r1 = (Some found, r2) /\
      Py.len found <> ws).
Proof.
  split.
  - intros [msg Hmsg].
    destruct (load_before_glob _ _ _ _ _ _ _ _ Hmsg Logic.I)
      as (t0 & r1 & found & r2 & Ht & Hg).
    exists t0, r1, found, r2. repeat split; try done.
    intros Hlen.
    destruct (load_past_assertion _ _ _ _ _ _ _ _ _ _ _ _ Ht Hg Hlen Hmsg)
      as [[? _]|?]; done.
  - intros (t0 & r1 & found & r2 & Ht & Hg & Hne).
    rewrite (load_assertion_fails _ _ _ _ _ _ _ _ _ _ _ Ht Hg Hne).
    by eexists.
Qed.

(** [load] past its assertion: the shard lookup, then the first line,
    then [torch.load] on the shard found. *)
Lemma load_proceeds ckpt tok lr ws msl mbs w t0 r1 found r2 :
  time_time (rt w) = (Some t0, r1) ->
  glob_pth ckpt r1 = (Some found, r2) ->
  Py.len found = ws ->
  (Py.index (Py.sorted found) lr = None ->
   outcome (load ckpt tok lr ws msl mbs w) = inl IndexError) /\
  (forall path,
     Py.index (Py.sorted found) lr = Some path ->
     (stdout_null w = false ->
      exists rest, log (load ckpt tok lr ws msl mbs w)
                   = EvPrint [PStr "Loading"] :: rest) /\
     (forall r3, torch_load path r2 = (None, r3) ->
        outcome (load ckpt tok lr ws msl mbs w) = inl (Raised "torch.load"))).
Proof.
  intros Ht Hg Hlen. unfold load.
  step_ext Ht.
  step_ext Hg.
  unfold Py.len in *. rewrite length_sorted.
  rewrite bool_decide_true by congruence.
  unfold assert. cbn iota.
  rewrite ret_bind. cbn [outcome log]. unfold getindex.
  split.
  - intros ->. by rewrite (bind_stop (raise IndexError) _ _ _ _ [] eq_refl).
  - intros path ->. rewrite ret_bind. split.
    + intros Hnull. rewrite bind_unfold. cbn [print outcome world log].
      simpl. rewrite Hnull. by eexists.
    + intros r3 Hload. rewrite bind_unfold. cbn [print outcome world log].
      by stop_ext Hload.
Qed.

(** Past the assertion, a rank within [-world_size .. world_size - 1]
    finds its shard. *)
Lemma load_no_index_error ckpt tok lr ws msl mbs w t0 r1 found r2 :
  time_time (rt w) = (Some t0, r1) ->
  glob_pth ckpt r1 = (Some found, r2) ->
  Py.len found = ws ->
  - ws <= lr < ws ->
  outcome (load ckpt tok lr ws msl mbs w) <> inl IndexError.
Proof.
  intros Ht Hg Hlen Hlr He.
  destruct (index_in_range (Py.sorted found) lr) as [path Hpath].
  { unfold Py.len in *. rewrite length_sorted. lia. }
  destruct (load_past_assertion _ _ _ _ _ _ _ _ _ _ _ _ Ht Hg Hlen He)
    as [[_ Hnone]|?]; [congruence|done].
Qed.

End Loading.

(** ** Exceptions end the run; what the bootstrap returns *)

Section Bootstrap.
Context {K F RT Obj : Type} `{EqDecision K} `{!Externals K F RT Obj}.
Implicit Types (a : Args (F:=F)) (w : World (RT:=RT)).

Abbreviation M := (M (K:=K) (F:=F) (RT:=RT) (Obj:=Obj)).

(** An exception raised by [setup_model_parallel] ends the run. *)
Lemma main_setup_model_parallel_fails a w e :
  outcome (setup_model_parallel w) = inl e -> outcome (main a w) = inl e.
Proof. intros He. unfold main. by rewrite (bind_err _ _ _ _ He). Qed.

(** An exception raised by [load] ends the run: [main] has no handler
    around it. *)
Lemma main_load_fails a w lr ws e :
  outcome (setup_model_parallel w) = inr (lr, ws) ->
  let silence : M unit :=
    if bool_decide (lr > 0)
    then ext "open" (open_w os_devnull) ≫= fun _ => set_stdout_null
    else mret tt in
  let w1 := world (silence (world (setup_model_parallel w))) in
  outcome (silence (world (setup_model_parallel w))) = inr tt ->
  outcome (load (ckpt_dir a) (tokenizer_path a) lr ws
             (max_seq_len a) (max_batch_size a) w1) = inl e ->
  outcome (main a w) = inl e.
Proof.
  intros Hs silence w1 Hsil Hload. unfold main.
  rewrite (bind_ok _ _ _ _ Hs). cbn [outcome]. cbn beta iota.
  fold silence. rewrite (bind_ok _ _ _ _ Hsil). cbn [outcome].
  rewrite (bind_ok (print _) _ _ tt eq_refl). cbn [outcome].
  rewrite (bind_ok (print _) _ _ tt eq_refl). cbn [outcome].
  rewrite !world_print.
  fold w1. by rewrite (bind_err _ _ _ _ Hload).
Qed.

Lemma log_setup_model_parallel w : log (setup_model_parallel w) = [].
Proof.
  assert (Hp : preserves (fun _ => True) (fun _ => False) setup_model_parallel)
    by (by apply preserves_setup_model_parallel).
  destruct (Hp w Logic.I) as [_ Hall]. by destruct Hall.
Qed.

Lemma getenv_int_unset name w :
  environ w !! name = None -> getenv_int name w = MkRun (inr (-1)) w [].
Proof.
  intros Hn. unfold getenv_int, get_environ. rewrite bind_unfold.
  cbn [outcome world log]. by rewrite Hn.
Qed.

Lemma getenv_int_set name w s :
  environ w !! name = Some s ->
  getenv_int name w
  = MkRun (match int_of_str s with Some n => inr n | None => inl ValueError end)
          w [].
Proof.
  intros Hn. unfold getenv_int, get_environ. rewrite bind_unfold.
  cbn [outcome world log]. rewrite Hn. by destruct (int_of_str s).
Qed.

Lemma getenv_int_run name w :
  world (getenv_int name w) = w /\ log (getenv_int name w) = [].
Proof.
  destruct (environ w !! name) as [s|] eqn:Hn.
  - by rewrite (getenv_int_set _ _ _ Hn).
  - by rewrite (getenv_int_unset _ _ Hn).
Qed.



End Bootstrap.

(** ** The claims about loading and the bootstrap *)

Section ClaimsLoading.
Context {K F RT Obj : Type} `{EqDecision K} `{!Externals K F RT Obj}.
Implicit Types (a : Args (F:=F)) (w : World (RT:=RT)).

Abbreviation M := (M (K:=K) (F:=F) (RT:=RT) (Obj:=Obj)).

(** C3. [load] fails its assertion exactly when the number of shard
    files found differs from [world_size]; with equal counts the
    assertion passes and loading goes on with the shard lookup, the
    line "Loading" and [torch.load].  Nothing in the script handles an
    exception: one raised in [setup_model_parallel], in [load], in the
    setup, in the loop or when the output file is opened is the outcome
    of the run. *)
Theorem shard_count_assertion ckpt tok lr ws msl mbs w :
  ((exists msg,
       outcome (load ckpt tok lr ws msl mbs w) = inl (AssertionError msg))
   <->
   (exists t0 r1 found r2,
       time_time (rt w) = (Some t0, r1) /\
       glob_pth ckpt r1 = (Some found, r2) /\
       Py.len found <> ws)) /\
  (forall t0 r1 found r2,
     time_time (rt w) = (Some t0, r1) ->
     glob_pth ckpt r1 = (Some found, r2) ->
     (Py.len found <> ws ->
      outcome (load ckpt tok lr ws msl mbs w)
      = inl (AssertionError (shard_mismatch_msg (Py.len found) ws))) /\
     (Py.len found = ws ->
      (forall msg,
         outcome (load ckpt tok lr ws msl mbs w) <> inl (AssertionError msg)) /\
      (Py.index (Py.sorted found) lr = None ->
       outcome (load ckpt tok lr ws msl mbs w) = inl IndexError) /\
      (forall path,
         Py.index (Py.sorted found) lr = Some path ->
         (stdout_null w = false ->
          exists rest, log (load ckpt tok lr ws msl mbs w)
                       = EvPrint [PStr "Loading"] :: rest) /\
         (forall r3, torch_load path r2 = (None, r3) ->
            outcome (load ckpt tok lr ws msl mbs w)
            = inl (Raised "torch.load"))))) /\
  (forall a w0 e,
     (outcome (setup_model_parallel w0) = inl e -> outcome (main a w0) = inl e) /\
     (forall lr0 ws0,
        outcome (setup_model_parallel w0) = inr (lr0, ws0) ->
        let silence : M unit :=
          if bool_decide (lr0 > 0)
          then ext "open" (open_w os_devnull) ≫= fun _ => set_stdout_null
          else mret tt in
        outcome (silence (world (setup_model_parallel w0))) = inr tt ->
        outcome (load (ckpt_dir a) (tokenizer_path a) lr0 ws0
                   (max_seq_len a) (max_batch_size a)
                   (world (silence (world (setup_model_parallel w0))))) = inl e ->
        outcome (main a w0) = inl e) /\
     (outcome (main_setup a w0) = inl e -> outcome (main a w0) = inl e) /\
     (forall g dn bs,
        outcome (main_setup a w0) = inr (g, dn, bs) ->
        outcome (generation_loop a g bs (world (main_setup a w0))) = inl e ->
        outcome (main a w0) = inl e)).
Proof.
  split; [apply load_assertion_iff|]. split.
  - intros t0 r1 found r2 Ht Hg. split.
    + intros Hne. by rewrite (load_assertion_fails _ _ _ _ _ _ _ _ _ _ _ Ht Hg Hne).
    + intros Hlen. split; [|by apply (load_proceeds _ _ _ _ _ _ _ _ _ _ _ Ht Hg Hlen)].
      intros msg Hmsg.
      destruct (proj1 (load_assertion_iff ckpt tok lr ws msl mbs w))
        as (t0' & r1' & found' & r2' & Ht' & Hg' & Hne); [by exists msg|].
      rewrite Ht in Ht'. injection Ht' as <- <-.
      rewrite Hg in Hg'. injection Hg' as <- <-. done.
  - intros a w0 e. repeat split.
    + apply main_setup_model_parallel_fails.
    + intros lr0 ws0. apply main_load_fails.
    + intros He. by apply main_setup_fails.
    + intros g dn bs Hs Hl. by destruct (main_loop_fails _ _ _ _ _ _ Hs Hl).
Qed.


End ClaimsLoading.

(** ** The claims about the output file and the requests *)

Section ClaimsOutput.
Context {K F RT Obj : Type} `{EqDecision K} `{!Externals K F RT Obj}.
Implicit Types (a : Args (F:=F)) (g : Obj) (b : list (Rec (K:=K)))
  (bs : list (list (Rec (K:=K)))) (d : Py.dict K string)
  (w : World (RT:=RT)).

(** [str] of an int can be read back: the decimal numeral determines
    the int. *)
Lemma to_int_not_nil n : Z.to_int n <> Decimal.Pos Decimal.Nil /\
                         Z.to_int n <> Decimal.Neg Decimal.Nil.
Proof.
  pose proof (DecimalZ.to_of (Z.to_int n)) as Hnorm.
  rewrite DecimalZ.of_to in Hnorm.
  split; intros Heq; rewrite Heq in Hnorm; discriminate Hnorm.
Qed.

Lemma str_decodes n :
  option_map Z.of_int (NilZero.int_of_string (Py.str n)) = Some n.
Proof.
  unfold Py.str. destruct (to_int_not_nil n) as [Hp Hn].
  rewrite (NilZero.isi _ Hp Hn). simpl. by rewrite DecimalZ.of_to.
Qed.

Lemma str_inj m n : Py.str m = Py.str n -> m = n.
Proof.
  intros Heq. pose proof (str_decodes m) as Hm. rewrite Heq, str_decodes in Hm.
  congruence.
Qed.

Lemma lookup_map_ok callee (m : Ext (gmap Z string)) key w v :
  outcome (lookup_map (K:=K) (F:=F) (Obj:=Obj) callee m key w) = inr v ->
  exists table r1, m (rt w) = (Some table, r1) /\ table !! key = Some v.
Proof.
  unfold lookup_map. intros Hok.
  apply bind_ok_inv in Hok as (table & Hm & Hok & _).
  apply ext_ok in Hm as (r1 & Hm & _).
  exists table, r1. split; [done|].
  destruct (table !! key); [|done]. by injection Hok as <-.
Qed.

(** The data name of a completed setup is what [get_helm_data_name]
    returned for the dataset file of [data_id]. *)
Lemma main_setup_data_name a w g dn bs :
  outcome (main_setup a w) = inr (g, dn, bs) ->
  exists table file r0 r1 r2 r3,
    helm_dataset_map r0 = (Some table, r1) /\
    table !! data_id a = Some file /\
    get_helm_data_name file r2 = (Some dn, r3).
Proof.
  unfold main_setup. intros Hok.
  apply bind_ok_inv in Hok as ([lr ws] & _ & Hok & _).
  apply bind_ok_inv in Hok as (? & _ & Hok & _).
  apply bind_ok_inv in Hok as (? & _ & Hok & _).
  apply bind_ok_inv in Hok as (? & _ & Hok & _).
  apply bind_ok_inv in Hok as (g' & _ & Hok & _).
  apply bind_ok_inv in Hok as (tk & _ & Hok & _).
  apply bind_ok_inv in Hok as (file & Hfile & Hok & _).
  apply bind_ok_inv in Hok as (pt & _ & Hok & _).
  apply bind_ok_inv in Hok as (dn' & Hdn & Hok & _).
  apply bind_ok_inv in Hok as (bs' & _ & Hok & _).
  apply bind_ok_inv in Hok as (? & _ & Hok & _).
  apply bind_ok_inv in Hok as (? & _ & Hok & _).
  apply bind_ok_inv in Hok as (ms & _ & Hok & _).
  apply bind_ok_inv in Hok as (? & _ & Hok & _).
  injection Hok as <- <- <-.
  apply lookup_map_ok in Hfile as (table & r1 & Htable & Hlook).
  apply ext_ok in Hdn as (r3 & Hdn & _).
  by repeat eexists.
Qed.

(** C6. The file a run writes is in the fixed output directory, and
    its name is the data name, the prompt id, the example count [k] and
    the instance count, joined as
    [{data_name}_{p_id}_{k}_samples{num_instances}.json], each number in
    decimal. *)
Theorem output_file_name a w path d :
  (path, d) ∈ writes (log (main a w)) ->
  exists g dn bs,
    outcome (main_setup a w) = inr (g, dn, bs) /\
    (exists table file r0 r1 r2 r3,
        helm_dataset_map r0 = (Some table, r1) /\
        table !! data_id a = Some file /\
        get_helm_data_name file r2 = (Some dn, r3)) /\
    path = ("/storage1/chenguangwang/Active/llama_system/fs_back" ++ "/"
              ++ dn ++ "_" ++ Py.str (p_id a) ++ "_" ++ Py.str (k a)
              ++ "_samples" ++ Py.str (num_instances a) ++ ".json")%string /\
    (forall m n, Py.str m = Py.str n -> m = n).
Proof.
  intros Hw.
  destruct (main_writes a w)
    as [[Hnone _]|(g & dn & bs & i & d0 & Hs & _ & _ & Hone)].
  - rewrite Hnone in Hw. by apply elem_of_nil in Hw.
  - rewrite Hone in Hw. apply list_elem_of_singleton in Hw as [= -> ->].
    exists g, dn, bs. split; [done|]. split; [by eapply main_setup_data_name|].
    split; [done|]. exact str_inj.
Qed.

Lemma generate_calls_app (l1 l2 : list (Event (K:=K) (F:=F) (Obj:=Obj))) :
  generate_calls (l1 ++ l2) = generate_calls l1 ++ generate_calls l2.
Proof. apply omap_app. Qed.

Lemma writes_app (l1 l2 : list (Event (K:=K) (F:=F) (Obj:=Obj))) :
  writes (l1 ++ l2) = writes l1 ++ writes l2.
Proof. apply omap_app. Qed.

(** C5. A run that completes writes the output file exactly once, as
    its last event, after the generation request of every batch; a run
    that does not complete writes nothing.  So no write comes before
    the loop is over. *)
Theorem written_once_after_loop a w :
  (outcome (main a w) <> inr tt -> writes (log (main a w)) = []) /\
  (outcome (main a w) = inr tt ->
   exists g dn bs i d before,
     outcome (main_setup a w) = inr (g, dn, bs) /\
     outcome (generation_loop a g bs (world (main_setup a w))) = inr (i, d) /\
     log (main a w)
     = before ++ [EvJsonDump (output_path dn (p_id a) (k a) (num_instances a)) d] /\
     writes before = [] /\
     generate_calls before = request_for a g <$> bs /\
     writes (log (main a w))
     = [(output_path dn (p_id a) (k a) (num_instances a), d)]).
Proof.
  split.
  - intros Hfail.
    by destruct (main_writes a w) as [[Hnone _]|(? & ? & ? & ? & ? & _ & _ & ? & _)].
  - intros Hok.
    destruct (main_ok_inv a w Hok) as (g & dn & bs & i & d & Hs & Hl & Hlog).
    exists g, dn, bs, i, d,
      (log (main_setup a w)
         ++ log (generation_loop a g bs (world (main_setup a w)))).
    assert (Hnow : writes (log (main_setup a w)
                     ++ log (generation_loop a g bs (world (main_setup a w))))
                   = []).
    { by rewrite writes_app, writes_main_setup, writes_generation_loop. }
    repeat split; try done.
    + by rewrite Hlog, app_assoc.
    + rewrite generate_calls_app, generate_calls_main_setup. simpl.
      unfold generation_loop in *.
      by apply (proj2 (loop_generate_calls a g bs (0, []) _) (i, d)).
    + rewrite Hlog, app_assoc, writes_app, Hnow. done.
Qed.

(** The loop serves its batches one after the other: when it
    completes, every batch got its call, each on the state left by the
    batch before; when it stops, the batches before the one that failed
    were served and that one was requested. *)
Lemma loop_generations a g bs st w :
  match outcome (for_each bs (loop_body a g) st w) with
  | inr _ =>
      exists results,
        generations a g bs (rt w)
        = Some (results, rt (world (for_each bs (loop_body a g) st w))) /\
        length results = length bs
  | inl _ =>
      exists n results r',
        (n < length bs)%nat /\
        generations a g (take n bs) (rt w) = Some (results, r') /\
        length results = n /\
        generate_calls (log (for_each bs (loop_body a g) st w))
        = request_for a g <$> take (S n) bs
  end.
Proof.
  revert st w. induction bs as [|b bs IH]; intros [i d] w.
  - simpl. by exists [].
  - cbn [for_each]. rewrite bind_unfold.
    pose proof (loop_body_generate_calls a g (i, d) b w) as Hcall.
    destruct (outcome (loop_body a g (i, d) b w)) as [e|[i1 d1]] eqn:Hb.
    + cbn [outcome log]. exists 0%nat, [], (rt w). simpl.
      repeat split; [lia|done].
    + cbn [outcome world log].
      apply loop_body_ok in Hb as (results & r1 & outputs & Hgen & Hiso & _ & _).
      specialize (IH (i1, d1) (world (loop_body a g (i, d) b w))).
      destruct (outcome (for_each bs (loop_body a g) (i1, d1)
                           (world (loop_body a g (i, d) b w)))) as [e|st'].
      * destruct IH as (n & rest & r' & Hn & Hserved & Hlen & Hcalls).
        exists (S n), (results :: rest), r'.
        split; [simpl; lia|]. split; [|split].
        -- cbn [take generations]. by rewrite Hgen, Hiso, Hserved.
        -- simpl. by rewrite Hlen.
        -- rewrite generate_calls_app, Hcall, Hcalls. done.
      * destruct IH as (rest & Hserved & Hlen).
        exists (results :: rest). split.
        -- cbn [generations]. by rewrite Hgen, Hiso, Hserved.
        -- simpl. by rewrite Hlen.
Qed.

(** C8. The generation requests of a run are, in order, one per batch:
    the generator of the setup, the prompts of the batch, and the CLI
    values [max_new_tokens], [temperature] and [top_p].  A run that
    stops early has made the requests of a prefix of the batches.
    Each request is a call of [generate] with these arguments, made in
    the runtime state that the batch before left after its own call had
    returned and its results had been isolated: in a run that
    completes all the batches are served in this way, and in a run that
    does not, the batches before the last one requested are. *)
Theorem one_generation_per_batch a w g dn bs :
  outcome (main_setup a w) = inr (g, dn, bs) ->
  generate_calls (log (main a w))
    `prefix_of`
    ((fun b => (g, input <$> b, max_new_tokens a, temperature a, top_p a)) <$> bs) /\
  (outcome (main a w) = inr tt ->
   generate_calls (log (main a w))
   = (fun b => (g, input <$> b, max_new_tokens a, temperature a, top_p a)) <$> bs) /\
  (outcome (main a w) = inr tt ->
   exists results,
     generations a g bs (rt (world (main_setup a w)))
     = Some (results,
             rt (world (generation_loop a g bs (world (main_setup a w))))) /\
     length results = length bs) /\
  (outcome (main a w) <> inr tt ->
   exists n results r',
     generations a g (take n bs) (rt (world (main_setup a w)))
     = Some (results, r') /\
     length results = n /\
     ((n = length bs /\
       generate_calls (log (main a w))
       = (fun b => (g, input <$> b, max_new_tokens a, temperature a, top_p a))
           <$> bs) \/
      ((n < length bs)%nat /\
       generate_calls (log (main a w))
       = (fun b => (g, input <$> b, max_new_tokens a, temperature a, top_p a))
           <$> take (S n) bs))).
Proof.
  intros Hs.
  change (fun b => (g, input <$> b, max_new_tokens a, temperature a, top_p a))
    with (request_for (K:=K) a g).
  pose proof (loop_generations a g bs (0, []) (world (main_setup a w))) as Hserved.
  fold (generation_loop a g bs (world (main_setup a w))) in Hserved.
  destruct (outcome (generation_loop a g bs (world (main_setup a w))))
    as [e|[i d]] eqn:Hl.
  - destruct (main_loop_fails _ _ _ _ _ _ Hs Hl) as [Ho Hlog].
    rewrite Hlog, generate_calls_app, generate_calls_main_setup, app_nil_l.
    split; [apply loop_generate_calls|].
    split; [by rewrite Ho|]. split; [by rewrite Ho|].
    intros _. destruct Hserved as (n & results & r' & Hn & Hgen & Hlen & Hcalls).
    exists n, results, r'. split; [done|]. split; [done|]. right. by split.
  - destruct (main_loop_done _ _ _ _ _ _ _ Hs Hl) as [_ Hlog].
    rewrite Hlog, !generate_calls_app, generate_calls_main_setup, app_nil_l.
    assert (Hp : generate_calls (log (persist a dn d
        (world (generation_loop a g bs (world (main_setup a w)))))) = []).
    { destruct (persist_cases a dn d
        (world (generation_loop a g bs (world (main_setup a w)))))
        as [[_ ->]|[_ ->]]; done. }
    rewrite Hp, app_nil_r.
    assert (Hcalls : generate_calls
                       (log (generation_loop a g bs (world (main_setup a w))))
                     = request_for a g <$> bs).
    { unfold generation_loop in *.
      exact (proj2 (loop_generate_calls a g bs (0, []) _) (i, d) Hl). }
    rewrite Hcalls.
    destruct Hserved as (results & Hgen & Hlen).
    split; [done|]. split; [done|]. split.
    + intros _. by exists results.
    + intros _. exists (length bs), results,
        (rt (world (generation_loop a g bs (world (main_setup a w))))).
      rewrite firstn_all. split; [done|]. split; [done|]. left. by split.
Qed.

(** C9. The value passed for [prepend_text] has no effect: [main]
    replaces it by the prompt of [p_id] before any use, so two runs that
    differ only in it are the same run, with the same batches of
    prompts, the same requests, the same mapping and the same file. *)
Theorem prepend_text_is_ignored a text1 text2 w :
  main_setup (with_prepend_text a text1) w
  = main_setup (with_prepend_text a text2) w /\
  main (with_prepend_text a text1) w = main (with_prepend_text a text2) w /\
  with_prepend_text a (prepend_text a) = a.
Proof. repeat split. by destruct a. Qed.

End ClaimsOutput.

(** ** Noninterference of MODEL_SIZE *)

Section Noninterference.
Context {K F RT Obj : Type} `{EqDecision K} `{!Externals K F RT Obj}.
Implicit Types (w : World (RT:=RT)).

Abbreviation M := (M (K:=K) (F:=F) (RT:=RT) (Obj:=Obj)).

Lemma effects_app (l1 l2 : list (Event (K:=K) (F:=F) (Obj:=Obj))) :
  effects (l1 ++ l2) = effects l1 ++ effects l2.
Proof. apply filter_app. Qed.

Lemma effects_print w args :
  effects (log (print (K:=K) (F:=F) (Obj:=Obj) args w)) = [].
Proof. unfold print. simpl. by destruct (stdout_null w). Qed.

Lemma effects_cons_print args (l : list (Event (K:=K) (F:=F) (Obj:=Obj))) :
  effects (EvPrint args :: l) = effects l.
Proof. unfold effects. by rewrite filter_cons_False by done. Qed.

Lemma effects_cons_other e (l : list (Event (K:=K) (F:=F) (Obj:=Obj))) :
  is_print e = false -> effects (e :: l) = e :: effects l.
Proof. intros He. unfold effects. by rewrite filter_cons_True. Qed.

Lemma writes_effects (l : list (Event (K:=K) (F:=F) (Obj:=Obj))) :
  writes (effects l) = writes l.
Proof.
  induction l as [|e l IH]; [done|].
  destruct e as [args| |path d].
  - by rewrite effects_cons_print.
  - rewrite effects_cons_other by done. exact IH.
  - rewrite effects_cons_other by done.
    change (writes (EvJsonDump path d :: ?l')) with ((path, d) :: writes l').
    by rewrite IH.
Qed.

Lemma generate_calls_effects (l : list (Event (K:=K) (F:=F) (Obj:=Obj))) :
  generate_calls (effects l) = generate_calls l.
Proof.
  induction l as [|e l IH]; [done|].
  destruct e as [args|g ps n t p|path d].
  - by rewrite effects_cons_print.
  - rewrite effects_cons_other by done.
    change (generate_calls (EvGenerate g ps n t p :: ?l'))
      with ((g, ps, n, t, p) :: generate_calls l').
    by rewrite IH.
  - rewrite effects_cons_other by done. exact IH.
Qed.

Lemma low_equiv_rt w1 w2 (r : RT) :
  low_equiv w1 w2 ->
  low_equiv (MkWorld (environ w1) (stdout_null w1) r)
            (MkWorld (environ w2) (stdout_null w2) r).
Proof. intros (_ & Hn & He & H1 & H2). by repeat split. Qed.

Lemma low_equiv_null w1 w2 :
  low_equiv w1 w2 ->
  low_equiv (MkWorld (environ w1) true (rt w1))
            (MkWorld (environ w2) true (rt w2)).
Proof. intros (Hr & _ & He & H1 & H2). by repeat split. Qed.

Lemma noninterfering_ret {A} (x : A) : noninterfering (mret x : M A).
Proof. intros w1 w2 Hw. split; [done|]. by split. Qed.

Lemma noninterfering_raise {A} e : noninterfering (raise e : M A).
Proof. intros w1 w2 Hw. split; [done|]. by split. Qed.

Lemma noninterfering_bind {A B} (m : M A) (f : A -> M B) :
  noninterfering m -> (forall x, noninterfering (f x)) ->
  noninterfering (m ≫= f).
Proof.
  intros Hm Hf w1 w2 Hw. destruct (Hm w1 w2 Hw) as (Ho & Hw' & Hl).
  rewrite !bind_unfold. rewrite <- Ho.
  destruct (outcome (m w1)) as [e|x]; [by split|].
  destruct (Hf x _ _ Hw') as (Ho2 & Hw2 & Hl2).
  split; [done|]. split; [done|].
  cbn [log]. by rewrite !effects_app, Hl, Hl2.
Qed.

Lemma noninterfering_ext {R} callee (c : Ext R) :
  noninterfering (ext callee c : M R).
Proof.
  intros w1 w2 Hw. unfold ext. pose proof Hw as (Hr & _). rewrite <- Hr.
  destruct (c (rt w1)) as [o r]. split; [done|]. split; [|done].
  by apply low_equiv_rt.
Qed.

Lemma noninterfering_print args : noninterfering (print args : M unit).
Proof.
  intros w1 w2 Hw. split; [done|]. split; [exact Hw|].
  by rewrite !effects_print.
Qed.

Lemma noninterfering_emit e : noninterfering (emit e : M unit).
Proof. intros w1 w2 Hw. split; [done|]. by split. Qed.

Lemma noninterfering_set_stdout_null :
  noninterfering (set_stdout_null : M unit).
Proof.
  intros w1 w2 Hw. split; [done|]. split; [|done].
  by apply low_equiv_null.
Qed.

Lemma noninterfering_assert c msg : noninterfering (assert c msg : M unit).
Proof. destruct c; [apply noninterfering_ret|apply noninterfering_raise]. Qed.

Lemma noninterfering_getindex {A} (l : list A) i :
  noninterfering (getindex l i : M A).
Proof.
  unfold getindex.
  destruct (Py.index l i); [apply noninterfering_ret|apply noninterfering_raise].
Qed.

Lemma noninterfering_for_each {A S} (l : list A) (body : S -> A -> M S) s :
  (forall s x, noninterfering (body s x)) -> noninterfering (for_each l body s).
Proof.
  intros Hbody. revert s. induction l as [|x l IH]; intros s; simpl.
  - apply noninterfering_ret.
  - apply noninterfering_bind; [apply Hbody|apply IH].
Qed.

(** Reading any other variable gives the same value in both worlds. *)
Lemma noninterfering_getenv_int name :
  name <> "MODEL_SIZE" -> noninterfering (getenv_int name : M Z).
Proof.
  intros Hname w1 w2 Hw.
  pose proof Hw as (_ & _ & He & _).
  destruct (environ w1 !! name) as [s|] eqn:Hn.
  - rewrite (getenv_int_set _ _ _ Hn).
    rewrite (He name Hname) in Hn. rewrite (getenv_int_set _ _ _ Hn).
    split; [done|]. by split.
  - rewrite (getenv_int_unset _ _ Hn).
    rewrite (He name Hname) in Hn. rewrite (getenv_int_unset _ _ Hn).
    split; [done|]. by split.
Qed.

Lemma noninterfering_lookup_map callee m key :
  noninterfering (lookup_map callee m key : M string).
Proof.
  unfold lookup_map. apply noninterfering_bind; [apply noninterfering_ext|].
  intros t. destruct (t !! key); [apply noninterfering_ret|apply noninterfering_raise].
Qed.

Lemma getenv_set name w s :
  environ w !! name = Some s ->
  getenv (K:=K) (F:=F) (Obj:=Obj) name w = MkRun (inr s) w [].
Proof.
  intros Hn. unfold getenv, get_environ. rewrite bind_unfold.
  cbn [outcome world log]. by rewrite Hn.
Qed.

(** MODEL_SIZE is read to be printed: what follows does not see it. *)
Lemma noninterfering_model_size {A} (rest : M A) :
  noninterfering rest ->
  noninterfering
    (getenv "MODEL_SIZE"
       ≫= fun model_size => print [PStr "Model name: "; PStr model_size]
       ≫= fun _ => rest).
Proof.
  intros Hrest w1 w2 Hw.
  pose proof Hw as (_ & _ & _ & [v1 Hv1] & [v2 Hv2]).
  rewrite (bind_step _ _ _ _ _ _ (getenv_set _ _ _ Hv1)).
  rewrite (bind_step _ _ _ _ _ _ (getenv_set _ _ _ Hv2)).
  cbn beta. rewrite !bind_unfold.
  change (outcome (print ?args ?w)) with (inr (A:=Exc) tt).
  cbn iota. rewrite !world_print.
  destruct (Hrest w1 w2 Hw) as (Ho & Hw' & Hl).
  split; [done|]. split; [done|].
  cbn [log]. by rewrite !app_nil_l, !effects_app, !effects_print, Hl.
Qed.

Ltac noninterfering_step :=
  first
    [ apply noninterfering_ret
    | apply noninterfering_raise
    | apply noninterfering_ext
    | apply noninterfering_print
    | apply noninterfering_emit
    | apply noninterfering_set_stdout_null
    | apply noninterfering_assert
    | apply noninterfering_getindex
    | apply noninterfering_getenv_int; discriminate
    | apply noninterfering_lookup_map
    | apply noninterfering_model_size
    | apply noninterfering_for_each; intros
    | apply noninterfering_bind; [|intros]
    | match goal with
      | |- noninterfering (if ?c then _ else _) => destruct c
      | |- noninterfering (let '(_, _) := ?p in _) => destruct p
      | |- noninterfering (match ?p with (_, _) => _ end) => destruct p
      end ].

Lemma noninterfering_main a : noninterfering (main a).
Proof.
  unfold main, setup_model_parallel, load, loop_body, call_generate.
  repeat noninterfering_step.
Qed.

Lemma low_equiv_with_model_size w v1 v2 :
  low_equiv (with_model_size w v1) (with_model_size w v2).
Proof.
  unfold with_model_size.
  split; [done|]. split; [done|]. split; [|split].
  - intros name Hname. cbn [environ]. by rewrite !lookup_insert_ne.
  - cbn [environ]. rewrite lookup_insert_eq. by eexists.
  - cbn [environ]. rewrite lookup_insert_eq. by eexists.
Qed.

(** C7. MODEL_SIZE is read for display only: two runs that differ only
    in its value have the same outcome, make the same generation
    requests, build the same mapping and write the same file, and leave
    the runtime in the same state; they differ at most in console
    lines. *)
Theorem model_size_is_display_only a w v1 v2 :
  outcome (main a (with_model_size w v1)) = outcome (main a (with_model_size w v2)) /\
  writes (log (main a (with_model_size w v1)))
  = writes (log (main a (with_model_size w v2))) /\
  generate_calls (log (main a (with_model_size w v1)))
  = generate_calls (log (main a (with_model_size w v2))) /\
  effects (log (main a (with_model_size w v1)))
  = effects (log (main a (with_model_size w v2))) /\
  rt (world (main a (with_model_size w v1)))
  = rt (world (main a (with_model_size w v2))).
Proof.
  destruct (noninterfering_main a _ _ (low_equiv_with_model_size w v1 v2))
    as (Ho & (Hr & _) & Hl).
  split; [exact Ho|]. split; [|split; [|split; [exact Hl|exact Hr]]].
  - by rewrite <- (writes_effects (log (main a (with_model_size w v1)))), Hl,
      writes_effects.
  - by rewrite <- (generate_calls_effects (log (main a (with_model_size w v1)))),
      Hl, generate_calls_effects.
Qed.

End Noninterference.

(** ** Who prints and who writes *)

Section Ranks.
Context {K F RT Obj : Type} `{EqDecision K} `{!Externals K F RT Obj}.
Implicit Types (a : Args (F:=F)) (w : World (RT:=RT)).

Abbreviation M := (M (K:=K) (F:=F) (RT:=RT) (Obj:=Obj)).

Lemma console_app (l1 l2 : list (Event (K:=K) (F:=F) (Obj:=Obj))) :
  console (l1 ++ l2) = console l1 ++ console l2.
Proof. apply omap_app. Qed.

(** Line 85, the redirection of stdout: it logs nothing, and when it
    returns stdout is the null device. *)
Lemma silence_run w :
  log ((ext "open" (open_w os_devnull) ≫= fun _ => set_stdout_null : M unit) w)
  = [] /\
  (outcome ((ext "open" (open_w os_devnull) ≫= fun _ => set_stdout_null : M unit) w)
   = inr tt ->
   stdout_null
     (world ((ext "open" (open_w os_devnull)
                ≫= fun _ => set_stdout_null : M unit) w)) = true).
Proof.
  destruct (open_w os_devnull (rt w)) as [[[]|] r] eqn:Ho.
  - by step_ext Ho.
  - by stop_ext Ho.
Qed.

(** Once stdout is the null device, what follows prints nothing. *)
Lemma quiet_after_silence {A} (rest : M A) w :
  preserves (fun w => stdout_null w = true) (fun e => is_print e = false) rest ->
  console (log (((ext "open" (open_w os_devnull) ≫= fun _ => set_stdout_null)
                   ≫= fun _ => rest) w)) = [].
Proof.
  intros Hrest. rewrite bind_unfold.
  destruct (silence_run w) as [Hlog Hnull].
  destruct (outcome ((ext "open" (open_w os_devnull)
                        ≫= fun _ => set_stdout_null : M unit) w)) as [e|[]].
  - cbn [log]. by rewrite Hlog.
  - cbn [log]. rewrite Hlog, app_nil_l.
    destruct (Hrest _ (Hnull eq_refl)) as [_ Hall].
    unfold console. eapply omap_nil_Forall, Forall_impl; [exact Hall|].
    by intros [].
Qed.

Lemma stdout_null_setup_model_parallel w :
  stdout_null (world (setup_model_parallel w)) = stdout_null w.
Proof.
  destruct (stdout_null w) eqn:Hn.
  - assert (Hp : preserves (fun w => stdout_null w = true) (fun _ => True)
                   setup_model_parallel)
      by (by apply preserves_setup_model_parallel).
    by apply Hp.
  - assert (Hp : preserves (fun w => stdout_null w = false) (fun _ => True)
                   setup_model_parallel)
      by (by apply preserves_setup_model_parallel).
    by apply Hp.
Qed.

(** C4, as the code has it.  A process whose rank is greater than 0
    prints nothing to the console; a process of rank 0 (or of the rank
    [-1] of an unset LOCAL_RANK) prints, starting with its rank.  The
    output file is not reserved to a rank: every process that completes
    the run writes it. *)
Theorem higher_ranks_print_nothing a w lr ws :
  outcome (setup_model_parallel w) = inr (lr, ws) ->
  (lr > 0 -> console (log (main a w)) = []) /\
  (lr <= 0 -> stdout_null w = false ->
   exists rest,
     console (log (main a w)) = [PStr "local_rank is"; PInt lr] :: rest) /\
  (outcome (main a w) = inr tt ->
   exists path d, writes (log (main a w)) = [(path, d)]).
Proof.
  intros Hs. split; [|split].
  - intros Hlr. unfold main. rewrite (bind_ok _ _ _ _ Hs). cbn [log].
    rewrite console_app, log_setup_model_parallel. cbn beta iota.
    rewrite bool_decide_true by done. simpl.
    apply quiet_after_silence.
    unfold load, loop_body, call_generate.
    repeat preserves_step ltac:(by (intros; simpl in *; congruence)).
    apply preserves_for_each; try by (intros; simpl in *; congruence).
    intros [i d] b.
    repeat preserves_step ltac:(by (intros; simpl in *; congruence)).
  - intros Hlr Hnull. unfold main. rewrite (bind_ok _ _ _ _ Hs). cbn [log].
    rewrite console_app, log_setup_model_parallel. cbn beta iota.
    rewrite bool_decide_false by lia. rewrite app_nil_l.
    rewrite ret_bind. rewrite bind_unfold.
    change (outcome (print _ _)) with (inr (B:=unit) (A:=Exc) tt). cbn iota. cbn [log].
    rewrite console_app.
    unfold print at 1. rewrite stdout_null_setup_model_parallel, Hnull.
    by eexists.
  - intros Hok.
    destruct (main_writes a w) as [[_ Hne]|(g & dn & bs & i & d & _ & _ & _ & Hw)];
      [done|by eexists _, _].
Qed.

End Ranks.

(** * The definitions at work on the concrete deployment *)

Section Examples.

Example find_hit :
  Py.find ("ab" ++ Py.newline ++ "cd" ++ Py.newline)%string Py.newline = 2.
Proof. reflexivity. Qed.

Example find_miss : Py.find "abcd" Py.newline = -1.
Proof. reflexivity. Qed.

Example find_empty_sub : Py.find "abcd" "" = 0.
Proof. reflexivity. Qed.

Example slice_first_two : Py.slice "abcdef" 0 2 = "ab".
Proof. reflexivity. Qed.

Example slice_negative : Py.slice "abcdef" (-3) (-1) = "de".
Proof. reflexivity. Qed.

Example index_last : Py.index [10; 20; 30] (-1) = Some 30.
Proof. reflexivity. Qed.

Example index_out :
  Py.index [10; 20; 30] 3 = None /\ Py.index [10; 20; 30] (-4) = None.
Proof. split; reflexivity. Qed.

Example str_examples : Py.str 0 = "0" /\ Py.str 100 = "100" /\ Py.str (-7) = "-7".
Proof. repeat split; reflexivity. Qed.

Example sorted_shards :
  Py.sorted ["consolidated.01.pth"; "consolidated.00.pth"]
  = ["consolidated.00.pth"; "consolidated.01.pth"].
Proof. vm_compute. reflexivity. Qed.

Example truncate_two_lines :
  truncate_at_newline ("yes" ++ Py.newline ++ "no" ++ Py.newline ++ "x")%string = "yes".
Proof. reflexivity. Qed.

Example truncate_leading_newline :
  truncate_at_newline (Py.newline ++ "no")%string = "".
Proof. reflexivity. Qed.

Example setitem_keeps_position :
  Py.setitem [("x", "1"); ("y", "2")] "x" "3" = [("x", "3"); ("y", "2")].
Proof. reflexivity. Qed.

(** The demo run at rank 0: seven console lines before the loop, two
    requests, one dump. *)
Example demo_run_rank0 :
  outcome (main Demo.args (Demo.world0 "0")) = inr tt /\
  writes (log (main Demo.args (Demo.world0 "0")))
  = [(Demo.written_path, Demo.written_dict)] /\
  generate_calls (log (main Demo.args (Demo.world0 "0")))
  = [("generator", ["Q1"; "Q2"], 100, 0, 1); ("generator", ["Q3"], 100, 0, 1)] /\
  length (console (log (main Demo.args (Demo.world0 "0")))) = 9%nat.
Proof. vm_compute. repeat split. Qed.

(** Without MODEL_SIZE the run ends with a KeyError before the loop. *)
Example demo_run_without_model_size :
  outcome (main Demo.args
             (MkWorld {[ "LOCAL_RANK" := "0"; "WORLD_SIZE" := "2" ]} false 0%nat))
  = inl (KeyError (inl "MODEL_SIZE")).
Proof. vm_compute. reflexivity. Qed.

End Examples.

(** * The claims on the concrete deployment *)

Section Witnesses.

(** The demo collaborators give one result per prompt and one output
    per result. *)
Lemma demo_one_output_per_prompt :
  one_output_per_prompt (K:=string) (F:=Z) (RT:=nat) (Obj:=string).
Proof.
  split.
  - intros g ps n t p r results r' [= <- _]. apply length_fmap.
  - intros ps results r outputs r' Hlen [= <- _].
    rewrite length_zip_with. lia.
Qed.


Lemma one_entry_per_instance_id_witness :
  exists d pairs,
    writes (log (main Demo.args (Demo.world0 "0")))
    = [(output_path "boolq" 0 5 0, d)] /\
    occurrences Demo.args "generator" Demo.batches
      (rt (world (main_setup Demo.args (Demo.world0 "0")))) = Some pairs /\
    pairs.*1 = ids_seen Demo.batches /\
    NoDup (Py.keys d) /\
    (forall id, id ∈ Py.keys d <-> id ∈ ids_seen Demo.batches) /\
    (forall id, Py.getitem d id = last_text pairs id) /\
    (forall id v,
       (id, v) ∈ d <->
       exists before after,
         pairs = before ++ (id, v) :: after /\ id ∉ after.*1).
Proof.
  apply (one_entry_per_instance_id Demo.args (Demo.world0 "0")
           "generator" "boolq" Demo.batches).
  - exact demo_one_output_per_prompt.
  - vm_compute. reflexivity.
  - vm_compute. reflexivity.
Defined.

Lemma shard_count_assertion_witness :
  outcome (load "/ckpt/7B" "/ckpt/tokenizer.model" 0 3 2048 2 (Demo.world0 "0"))
  = inl (AssertionError "Loading a checkpoint for MP=2 but world size is 3") /\
  (forall msg,
     outcome (load "/ckpt/7B" "/ckpt/tokenizer.model" 0 2 2048 2 (Demo.world0 "0"))
     <> inl (AssertionError msg)).
Proof.
  split.
  - destruct (shard_count_assertion (K:=string) (F:=Z) (RT:=nat) (Obj:=string)
                "/ckpt/7B" "/ckpt/tokenizer.model" 0 3 2048 2 (Demo.world0 "0"))
      as (_ & Hcases & _).
    destruct (Hcases 0 0%nat
                ["/ckpt/7B/consolidated.01.pth"; "/ckpt/7B/consolidated.00.pth"]
                0%nat) as [Hfails _]; [reflexivity|reflexivity|].
    apply Hfails. vm_compute. discriminate.
  - destruct (shard_count_assertion (K:=string) (F:=Z) (RT:=nat) (Obj:=string)
                "/ckpt/7B" "/ckpt/tokenizer.model" 0 2 2048 2 (Demo.world0 "0"))
      as (_ & Hcases & _).
    destruct (Hcases 0 0%nat
                ["/ckpt/7B/consolidated.01.pth"; "/ckpt/7B/consolidated.00.pth"]
                0%nat) as [_ Hpasses]; [reflexivity|reflexivity|].
    apply Hpasses. vm_compute. reflexivity.
Defined.


Lemma output_file_name_witness :
  exists g dn bs,
    outcome (main_setup Demo.args (Demo.world0 "0")) = inr (g, dn, bs) /\
    (exists table file r0 r1 r2 r3,
        helm_dataset_map r0 = (Some table, r1) /\
        table !! data_id Demo.args = Some file /\
        get_helm_data_name file r2 = (Some dn, r3)) /\
    Demo.written_path
    = ("/storage1/chenguangwang/Active/llama_system/fs_back" ++ "/"
         ++ dn ++ "_" ++ Py.str (p_id Demo.args) ++ "_" ++ Py.str (k Demo.args)
         ++ "_samples" ++ Py.str (num_instances Demo.args) ++ ".json")%string /\
    (forall m n, Py.str m = Py.str n -> m = n).
Proof.
  apply (output_file_name Demo.args (Demo.world0 "0")
           Demo.written_path Demo.written_dict).
  vm_compute. apply list_elem_of_here.
Defined.

Lemma written_once_after_loop_witness :
  exists g dn bs i d before,
    outcome (main_setup Demo.args (Demo.world0 "0")) = inr (g, dn, bs) /\
    outcome (generation_loop Demo.args g bs
               (world (main_setup Demo.args (Demo.world0 "0")))) = inr (i, d) /\
    log (main Demo.args (Demo.world0 "0"))
    = before ++ [EvJsonDump (output_path dn (p_id Demo.args) (k Demo.args)
                               (num_instances Demo.args)) d] /\
    writes before = [] /\
    generate_calls before = request_for Demo.args g <$> bs /\
    writes (log (main Demo.args (Demo.world0 "0")))
    = [(output_path dn (p_id Demo.args) (k Demo.args)
          (num_instances Demo.args), d)].
Proof.
  apply (proj2 (written_once_after_loop Demo.args (Demo.world0 "0"))).
  vm_compute. reflexivity.
Defined.

Lemma one_generation_per_batch_witness :
  generate_calls (log (main Demo.args (Demo.world0 "0")))
  = [("generator", ["Q1"; "Q2"], 100, 0, 1); ("generator", ["Q3"], 100, 0, 1)] /\
  (exists results,
      generations Demo.args "generator" Demo.batches
        (rt (world (main_setup Demo.args (Demo.world0 "0"))))
      = Some (results,
              rt (world (generation_loop Demo.args "generator" Demo.batches
                           (world (main_setup Demo.args (Demo.world0 "0")))))) /\
      length results = length Demo.batches).
Proof.
  assert (Hsetup : outcome (main_setup Demo.args (Demo.world0 "0"))
                   = inr ("generator", "boolq", Demo.batches))
    by (vm_compute; reflexivity).
  assert (Hdone : outcome (main Demo.args (Demo.world0 "0")) = inr tt)
    by (vm_compute; reflexivity).
  destruct (one_generation_per_batch _ _ _ _ _ Hsetup)
    as (_ & Hcalls & Hserved & _).
  split.
  - rewrite (Hcalls Hdone). reflexivity.
  - exact (Hserved Hdone).
Defined.

Lemma higher_ranks_print_nothing_witness :
  console (log (main Demo.args (Demo.world0 "1"))) = [] /\
  (exists rest,
      console (log (main Demo.args (Demo.world0 "0")))
      = [PStr "local_rank is"; PInt 0] :: rest).
Proof.
  assert (Hone : outcome (setup_model_parallel (Demo.world0 "1")) = inr (1, 2))
    by (vm_compute; reflexivity).
  assert (Hzero : outcome (setup_model_parallel (Demo.world0 "0")) = inr (0, 2))
    by (vm_compute; reflexivity).
  destruct (higher_ranks_print_nothing Demo.args _ _ _ Hone) as (Hquiet & _ & _).
  destruct (higher_ranks_print_nothing Demo.args _ _ _ Hzero) as (_ & Hloud & _).
  split.
  - apply Hquiet. lia.
  - apply Hloud; [lia|reflexivity].
Defined.

(** C4 as written fails: the process of rank 1 prints nothing, but it
    writes the output file like every other. *)
Lemma rank_one_writes_output_file :
  ~ (forall lr ws,
       outcome (setup_model_parallel (Demo.world0 "1")) = inr (lr, ws) ->
       lr > 0 ->
       console (log (main Demo.args (Demo.world0 "1"))) = [] /\
       writes (log (main Demo.args (Demo.world0 "1"))) = []).
Proof.
  intros Hclaim.
  assert (Hone : outcome (setup_model_parallel (Demo.world0 "1")) = inr (1, 2))
    by (vm_compute; reflexivity).
  destruct (Hclaim 1 2 Hone) as [_ Hnone]; [lia|].
  vm_compute in Hnone. discriminate Hnone.
Qed.

End Witnesses.

(** * Further properties of the script *)

(** ** The mapping: order, size, and what it can hold *)

Section Mapping.
Context {K F RT Obj : Type} `{EqDecision K} `{!Externals K F RT Obj}.
Implicit Types (a : Args (F:=F)) (g : Obj) (b : list (Rec (K:=K)))
  (bs : list (list (Rec (K:=K)))) (d : Py.dict K string)
  (w : World (RT:=RT)) (pairs : list (K * string)).

Lemma keys_setitem d k v :
  Py.keys (Py.setitem d k v)
  = if decide (k ∈ Py.keys d) then Py.keys d else Py.keys d ++ [k].
Proof.
  unfold Py.keys. induction d as [|[k0 v0] d IH].
  - cbn. destruct (decide (k ∈ [])) as [Hin|_]; [|done].
    by apply elem_of_nil in Hin.
  - cbn [Py.setitem]. destruct (decide (k0 = k)) as [->|Hne].
    + cbn. destruct (decide (k ∈ k :: d.*1)) as [_|Hnin]; [done|].
      exfalso. apply Hnin, elem_of_cons. by left.
    + cbn [fmap list_fmap fst]. change (list_fmap _ _ fst ?l) with (l.*1).
      rewrite IH.
      destruct (decide (k ∈ d.*1)) as [Hin|Hnin];
        destruct (decide (k ∈ k0 :: d.*1)) as [Hin'|Hnin']; try done.
      * exfalso. apply Hnin', elem_of_cons. by right.
      * exfalso. apply elem_of_cons in Hin' as [?|?]; [congruence|done].
Qed.

Lemma keys_foldl_assign d pairs :
  Py.keys (foldl assign d pairs)
  = foldl (fun acc x => if decide (x ∈ acc) then acc else acc ++ [x])
          (Py.keys d) pairs.*1.
Proof.
  revert d. induction pairs as [|[k0 v0] pairs IH]; intros d; simpl; [done|].
  rewrite IH. change (assign d (k0, v0)) with (Py.setitem d k0 v0).
  by rewrite keys_setitem.
Qed.

(** Assigning pairs with distinct keys into an empty dict gives the
    pairs themselves. *)
Lemma setitem_fresh d k v :
  k ∉ Py.keys d -> Py.setitem d k v = d ++ [(k, v)].
Proof.
  unfold Py.keys. induction d as [|[k0 v0] d IH]; simpl; [done|].
  rewrite not_elem_of_cons. intros [Hne Hnin].
  rewrite decide_False by congruence. by rewrite IH.
Qed.

Lemma foldl_assign_NoDup d pairs :
  NoDup (Py.keys d ++ pairs.*1) -> foldl assign d pairs = d ++ pairs.
Proof.
  revert d. induction pairs as [|[k0 v0] pairs IH]; intros d; simpl.
  - intros _. by rewrite app_nil_r.
  - intros Hnd. change (assign d (k0, v0)) with (Py.setitem d k0 v0).
    rewrite setitem_fresh.
    + rewrite IH.
      * by rewrite <- app_assoc.
      * unfold Py.keys in *. rewrite fmap_app. simpl.
        by rewrite <- app_assoc.
    + apply NoDup_app in Hnd as (_ & Hdisj & _).
      intros Hin. apply (Hdisj _ Hin). apply elem_of_cons. by left.
Qed.

(** The ids stored are ids of the batches, whatever the collaborators
    return: [zip] pairs each isolated output with a record of the batch. *)
Lemma occurrences_ids_sublist a g bs r pairs :
  occurrences a g bs r = Some pairs -> pairs.*1 `sublist_of` ids_seen bs.
Proof.
  revert r pairs. induction bs as [|b bs IH]; intros r pairs; simpl.
  - by intros [= <-].
  - destruct (generate _ _ _ _ _ r) as [[results|] r1]; [|done].
    destruct (isolate_output _ _ r1) as [[outputs|] r2]; [|done].
    destruct (occurrences a g bs r2) as [rest|] eqn:Hocc; [|done].
    intros [= <-]. rewrite fmap_app. unfold ids_seen. simpl.
    apply sublist_app; [|by eapply IH].
    generalize (truncate_at_newline <$> outputs). generalize (ids_of b).
    induction l as [|x l IHl]; intros [|y l']; simpl; try done.
    + apply sublist_nil_l.
    + by apply sublist_skip, IHl.
Qed.

(** What a run writes is the occurrences of its loop, assigned in order
    into an empty dict. *)
Lemma written_dict_occurrences a w g dn bs path d :
  outcome (main_setup a w) = inr (g, dn, bs) ->
  (path, d) ∈ writes (log (main a w)) ->
  exists pairs,
    occurrences a g bs (rt (world (main_setup a w))) = Some pairs /\
    d = foldl assign [] pairs.
Proof.
  intros Hs Hw.
  destruct (main_writes a w)
    as [[Hnone _]|(g' & dn' & bs' & i & d' & Hs' & Hl & _ & Hone)].
  - rewrite Hnone in Hw. by apply elem_of_nil in Hw.
  - rewrite Hone in Hw. apply list_elem_of_singleton in Hw as [= -> ->].
    rewrite Hs in Hs'. injection Hs' as <- <- <-.
    unfold generation_loop in Hl. by apply loop_occurrences in Hl.
Qed.

(** X11. In the output file the ids come in the order of their first
    occurrence, while the text of an id is that of its last occurrence:
    [d[k] = v] keeps the place of a key that is already there and
    replaces its value. *)
Theorem keys_in_order_of_first_occurrence a w g dn bs path d :
  outcome (main_setup a w) = inr (g, dn, bs) ->
  (path, d) ∈ writes (log (main a w)) ->
  exists pairs,
    occurrences a g bs (rt (world (main_setup a w))) = Some pairs /\
    Py.keys d = first_seen pairs.*1 /\
    (forall id, Py.getitem d id = last_text pairs id) /\
    (forall id v,
       (id, v) ∈ d <->
       exists before after,
         pairs = before ++ (id, v) :: after /\ id ∉ after.*1) /\
    (one_output_per_prompt -> Py.keys d = first_seen (ids_seen bs)).
Proof.
  intros Hs Hw.
  destruct (written_dict_occurrences _ _ _ _ _ _ _ Hs Hw) as (pairs & Hocc & ->).
  exists pairs. split; [done|].
  assert (Hkeys : Py.keys (foldl assign ([] : Py.dict K string) pairs)
                  = first_seen pairs.*1) by apply keys_foldl_assign.
  assert (Hget : forall id,
             Py.getitem (foldl assign ([] : Py.dict K string) pairs) id
             = last_text pairs id).
  { intros id. rewrite getitem_foldl_assign. by destruct (last_text pairs id). }
  assert (Hnd : NoDup (Py.keys (foldl assign ([] : Py.dict K string) pairs)))
    by apply NoDup_keys_foldl_assign, NoDup_nil_2.
  split; [done|]. split; [done|]. split.
  - intros id v. rewrite <- last_text_Some, <- Hget. split.
    + by apply elem_getitem_Some.
    + apply getitem_Some_elem.
  - intros Hc. by rewrite Hkeys, (occurrences_ids _ _ _ _ _ Hc Hocc).
Qed.

(** X12. Under the assumption written in the source (line 114: each input
    has a unique instance id), nothing is overwritten: the mapping
    written is the list of the occurrences, one entry per record, in
    batch iteration order. *)
Theorem unique_ids_one_entry_per_record a w g dn bs path d :
  one_output_per_prompt ->
  NoDup (ids_seen bs) ->
  outcome (main_setup a w) = inr (g, dn, bs) ->
  (path, d) ∈ writes (log (main a w)) ->
  occurrences a g bs (rt (world (main_setup a w))) = Some d /\
  Py.keys d = ids_seen bs /\
  length d = length (ids_seen bs).
Proof.
  intros Hc Hnd Hs Hw.
  destruct (written_dict_occurrences _ _ _ _ _ _ _ Hs Hw) as (pairs & Hocc & ->).
  pose proof (occurrences_ids _ _ _ _ _ Hc Hocc) as Hids.
  rewrite (foldl_assign_NoDup [] pairs) by (simpl; by rewrite Hids).
  simpl. split; [done|]. split; [done|].
  by rewrite <- Hids, length_fmap.
Qed.

(** X13. Whatever the collaborators return, the mapping written holds only
    instance ids of the batches, each once, so it has at most as many
    entries as there are records. *)
Theorem mapping_holds_only_batch_ids a w g dn bs path d :
  outcome (main_setup a w) = inr (g, dn, bs) ->
  (path, d) ∈ writes (log (main a w)) ->
  NoDup (Py.keys d) /\
  (forall id, id ∈ Py.keys d -> id ∈ ids_seen bs) /\
  (length d <= length (ids_seen bs))%nat.
Proof.
  intros Hs Hw.
  destruct (written_dict_occurrences _ _ _ _ _ _ _ Hs Hw) as (pairs & Hocc & ->).
  pose proof (occurrences_ids_sublist _ _ _ _ _ Hocc) as Hsub.
  assert (Hnd : NoDup (Py.keys (foldl assign ([] : Py.dict K string) pairs)))
    by apply NoDup_keys_foldl_assign, NoDup_nil_2.
  assert (Hin : forall id,
             id ∈ Py.keys (foldl assign ([] : Py.dict K string) pairs) ->
             id ∈ pairs.*1).
  { intros id [Hid|Hid]%elem_of_keys_foldl_assign; [|done].
    by apply elem_of_nil in Hid. }
  split; [done|]. split.
  - intros id Hid. eapply sublist_submseteq, elem_of_submseteq in Hsub; [done|].
    by apply Hin.
  - transitivity (length pairs.*1).
    + rewrite <- (length_fmap fst (foldl assign [] pairs)).
      apply submseteq_length, NoDup_submseteq; done.
    + by apply sublist_length.
Qed.

End Mapping.

(** ** How a run fails *)

Section Failures.
Context {K F RT Obj : Type} `{EqDecision K} `{!Externals K F RT Obj}.
Implicit Types (a : Args (F:=F)) (g : Obj) (b : list (Rec (K:=K)))
  (bs : list (list (Rec (K:=K)))) (d : Py.dict K string)
  (w : World (RT:=RT)).

Abbreviation M := (M (K:=K) (F:=F) (RT:=RT) (Obj:=Obj)).

Lemma never_returns_bind_l {A B} (m : M A) (f : A -> M B) w :
  (forall x, outcome (m w) <> inr x) ->
  forall y, outcome ((m ≫= f) w) <> inr y.
Proof.
  intros Hm y. rewrite bind_unfold.
  destruct (outcome (m w)) as [e|x] eqn:Ho; [done|]. by destruct (Hm x).
Qed.

Lemma never_returns_bind_r {A B} (I : World (RT:=RT) -> Prop) P
    (m : M A) (f : A -> M B) w :
  preserves I P m -> I w ->
  (forall x w', I w' -> forall y, outcome (f x w') <> inr y) ->
  forall y, outcome ((m ≫= f) w) <> inr y.
Proof.
  intros Hm Hw Hf y. rewrite bind_unfold. destruct (Hm w Hw) as [Hw' _].
  destruct (outcome (m w)) as [e|x]; [done|]. cbn [outcome]. by apply Hf.
Qed.

Lemma getenv_unset name w :
  environ w !! name = None ->
  getenv (K:=K) (F:=F) (Obj:=Obj) name w
  = MkRun (inl (KeyError (inl name))) w [].
Proof.
  intros Hn. unfold getenv, get_environ. rewrite bind_unfold.
  cbn [outcome world log]. by rewrite Hn.
Qed.

(** One step towards the read of MODEL_SIZE: the environment is as it
    was, since nothing in the script or its collaborators writes it. *)
Ltac towards_model_size :=
  cbn beta zeta;
  lazymatch goal with
  | |- forall y, outcome ((getenv "MODEL_SIZE" ≫= _) _) <> inr y =>
      apply never_returns_bind_l; intros ?;
      erewrite getenv_unset by eassumption; discriminate
  | |- forall y, outcome ((?m ≫= _) _) <> inr y =>
      apply (never_returns_bind_r
               (fun w => environ w !! "MODEL_SIZE" = None) (fun _ => True) m);
      [ first [ apply preserves_setup_model_parallel; solve [auto]
              | apply preserves_load; solve [auto]
              | repeat preserves_step ltac:(solve [auto]) ]
      | assumption
      | intros ? ? ? ]
  end.

(** X1. The script needs MODEL_SIZE although it only prints it: without it
    no run completes, and the failure comes before the first generation
    request and before any write. *)
Theorem model_size_is_required a w :
  environ w !! "MODEL_SIZE" = None ->
  (exists e, outcome (main a w) = inl e) /\
  generate_calls (log (main a w)) = [] /\
  writes (log (main a w)) = [].
Proof.
  intros Hunset.
  assert (Hsetup : forall y, outcome (main_setup a w) <> inr y).
  { unfold main_setup. towards_model_size.
    match goal with x : (Z * Z)%type |- _ => destruct x end.
    do 12 towards_model_size. }
  destruct (outcome (main_setup a w)) as [e|y] eqn:Hs; [|by destruct (Hsetup y)].
  destruct (main_setup_fails _ _ _ Hs) as [Ho Hl]. rewrite Hl.
  split; [by exists e|].
  split; [apply generate_calls_main_setup|apply writes_main_setup].
Qed.

(** X2. A rank or a world size that [int] rejects ends the run with
    ValueError before any collaborator is called: the runtime state is
    untouched and nothing is printed. *)
Theorem unparsable_rank_is_value_error a w s :
  (environ w !! "LOCAL_RANK" = Some s -> int_of_str s = None ->
   main a w = MkRun (inl ValueError) w []) /\
  (forall lr,
     outcome (getenv_int "LOCAL_RANK" w) = inr lr ->
     environ w !! "WORLD_SIZE" = Some s -> int_of_str s = None ->
     main a w = MkRun (inl ValueError) w []).
Proof.
  split.
  - intros Hset Hbad. unfold main, setup_model_parallel.
    erewrite bind_stop; [done|].
    erewrite bind_stop; [done|].
    by rewrite (getenv_int_set _ _ _ Hset), Hbad.
  - intros lr Hlr Hset Hbad. unfold main, setup_model_parallel.
    destruct (getenv_int_run "LOCAL_RANK" w) as [Hw Hl].
    erewrite bind_stop; [done|].
    rewrite (bind_ok _ _ _ _ Hlr), Hw, Hl. cbn beta.
    erewrite bind_stop; [done|].
    by rewrite (getenv_int_set _ _ _ Hset), Hbad.
Qed.

(** X3. Every exception a run can end with: ValueError from [int],
    the shard-count assertion with its message, IndexError from a
    lookup, KeyError for MODEL_SIZE, for [data_id] or for [p_id], or an
    exception raised by a collaborator. *)
Theorem exceptions_of_main a w e :
  outcome (main a w) = inl e ->
  match e with
  | ValueError => True
  | IndexError => True
  | AssertionError msg =>
      exists found ws, msg = shard_mismatch_msg found ws /\ found <> ws
  | KeyError (inl name) => name = "MODEL_SIZE"
  | KeyError (inr key) => key = data_id a \/ key = p_id a
  | Raised callee => True
  end.
Proof.
  intros He.
  refine ((_ : raises_only
                 (fun e => match e with
                           | ValueError => True
                           | IndexError => True
                           | AssertionError msg =>
                               exists found ws,
                                 msg = shard_mismatch_msg found ws /\ found <> ws
                           | KeyError (inl name) => name = "MODEL_SIZE"
                           | KeyError (inr key) => key = data_id a \/ key = p_id a
                           | Raised callee => True
                           end) (main a)) w e He).
  unfold main, setup_model_parallel, load, loop_body, call_generate.
  repeat raises_only_step
    ltac:(first [ done
                | by left
                | by right
                | intros ?%bool_decide_eq_false; eexists _, _; by split ]).
Qed.

(** X4. Past the assertion the shard lookup raises IndexError exactly for a
    rank outside [-world_size .. world_size - 1]. *)
Theorem shard_lookup_fails_iff_out_of_range ckpt tok lr ws msl mbs w t0 r1 found r2 :
  time_time (rt w) = (Some t0, r1) ->
  glob_pth ckpt r1 = (Some found, r2) ->
  Py.len found = ws ->
  (outcome (load ckpt tok lr ws msl mbs w) = inl IndexError
   <-> ~ (- ws <= lr < ws)).
Proof.
  intros Ht Hg Hlen. split.
  - intros He Hin.
    exact (load_no_index_error ckpt tok lr ws msl mbs w t0 r1 found r2
             Ht Hg Hlen Hin He).
  - intros Hout.
    apply (proj1 (load_proceeds _ _ _ _ _ _ _ _ _ _ _ Ht Hg Hlen)).
    apply index_out_of_range. unfold Py.len in *. rewrite length_sorted. lia.
Qed.

End Failures.

(** ** Edge cases of the loop and of the write *)

Section LoopEdges.
Context {K F RT Obj : Type} `{EqDecision K} `{!Externals K F RT Obj}.
Implicit Types (a : Args (F:=F)) (g : Obj) (b : list (Rec (K:=K)))
  (bs : list (list (Rec (K:=K)))) (d : Py.dict K string)
  (w : World (RT:=RT)).

Abbreviation M := (M (K:=K) (F:=F) (RT:=RT) (Obj:=Obj)).

Lemma call_generate_returns g ps n t p w results r1 :
  generate g ps n t p (rt w) = (Some results, r1) ->
  call_generate g ps n t p w
  = MkRun (inr results) (MkWorld (environ w) (stdout_null w) r1)
          [EvGenerate g ps n t p].
Proof.
  intros Hgen. unfold call_generate. rewrite bind_unfold.
  cbn [emit outcome world log]. by rewrite (ext_returns _ _ _ _ _ Hgen).
Qed.

(** [results[0]] is read while no record has been counted yet; a
    generator that answers the first batch with no result makes it an
    IndexError. *)
Lemma loop_body_no_first_result a g d b w r1 :
  generate g (prompts_of b) (max_new_tokens a) (temperature a) (top_p a) (rt w)
  = (Some [], r1) ->
  outcome (loop_body a g (0, d) b w) = inl IndexError.
Proof.
  intros Hgen. unfold loop_body. fold (prompts_of b) (ids_of b).
  rewrite (bind_step _ _ _ _ _ _ (call_generate_returns _ _ _ _ _ _ _ _ Hgen)).
  cbn beta. cbn [outcome]. rewrite (bool_decide_true (0 = 0)) by done.
  erewrite bind_stop; [done|].
  erewrite bind_step; [|reflexivity]. cbn beta.
  erewrite bind_stop; [|reflexivity]. reflexivity.
Qed.

(** X8. A run whose generator returns no result for the first batch ends
    with IndexError and writes nothing. *)
Theorem no_first_result_is_index_error a w g dn b bs r1 :
  outcome (main_setup a w) = inr (g, dn, b :: bs) ->
  generate g (prompts_of b) (max_new_tokens a) (temperature a) (top_p a)
    (rt (world (main_setup a w))) = (Some [], r1) ->
  outcome (main a w) = inl IndexError /\
  writes (log (main a w)) = [] /\
  generate_calls (log (main a w)) = [request_for a g b].
Proof.
  intros Hs Hgen.
  assert (Hl : outcome (generation_loop a g (b :: bs) (world (main_setup a w)))
               = inl IndexError).
  { unfold generation_loop. cbn [for_each].
    apply bind_propagates. by eapply loop_body_no_first_result. }
  destruct (main_loop_fails _ _ _ _ _ _ Hs Hl) as [Ho Hlog].
  split; [done|]. split.
  - destruct (main_writes a w) as [[Hnone _]|(? & ? & ? & ? & ? & _ & _ & Hok & _)];
      [done|congruence].
  - rewrite Hlog, generate_calls_app, generate_calls_main_setup, app_nil_l.
    unfold generation_loop. cbn [for_each].
    rewrite (bind_err _ _ _ _ (loop_body_no_first_result _ _ _ _ _ _ Hgen)).
    cbn [log]. apply loop_body_generate_calls.
Qed.

(** The counter [i] of the loop is the number of records of the
    batches processed. *)
Lemma loop_counter a g bs i d w i' d' :
  outcome (for_each bs (loop_body a g) (i, d) w) = inr (i', d') ->
  i' = i + Py.len (concat bs).
Proof.
  revert i d w. induction bs as [|b bs IH]; intros i d w.
  - simpl. intros [= <- <-]. unfold Py.len. simpl. lia.
  - cbn [for_each]. intros ([i1 d1] & Hb & Hrest & _)%bind_ok_inv.
    apply loop_body_ok in Hb as (_ & _ & _ & _ & _ & -> & _).
    apply IH in Hrest as ->. unfold Py.len. simpl.
    rewrite length_app. lia.
Qed.

(** X9. With no batch at all the run makes no request and writes the empty
    mapping. *)
Theorem empty_dataset_writes_empty_mapping a w g dn r :
  outcome (main_setup a w) = inr (g, dn, []) ->
  open_w (output_path dn (p_id a) (k a) (num_instances a))
    (rt (world (main_setup a w))) = (Some tt, r) ->
  outcome (main a w) = inr tt /\
  writes (log (main a w))
  = [(output_path dn (p_id a) (k a) (num_instances a), [])] /\
  generate_calls (log (main a w)) = [].
Proof.
  intros Hs Hopen.
  assert (Hl : outcome (generation_loop a g [] (world (main_setup a w)))
               = inr (0, [])) by done.
  destruct (main_loop_done _ _ _ _ _ _ _ Hs Hl) as [Ho Hlog].
  assert (Hp : persist a dn [] (world (main_setup a w))
               = MkRun (inr tt)
                   (MkWorld (environ (world (main_setup a w)))
                      (stdout_null (world (main_setup a w))) r)
                   [EvJsonDump (output_path dn (p_id a) (k a) (num_instances a)) []]).
  { unfold persist. cbn zeta. by step_ext Hopen. }
  change (world (generation_loop a g [] ?w0)) with w0 in *.
  rewrite Hp in *. split; [done|].
  rewrite Hlog. split.
  - by rewrite !writes_app, writes_main_setup, writes_generation_loop.
  - by rewrite !generate_calls_app, generate_calls_main_setup.
Qed.

(** X10. When the output file cannot be opened, the run fails after all the
    generation requests were made, and nothing is written: the whole
    mapping is lost. *)
Theorem unwritable_output_loses_the_mapping a w g dn bs i d r :
  outcome (main_setup a w) = inr (g, dn, bs) ->
  outcome (generation_loop a g bs (world (main_setup a w))) = inr (i, d) ->
  open_w (output_path dn (p_id a) (k a) (num_instances a))
    (rt (world (generation_loop a g bs (world (main_setup a w))))) = (None, r) ->
  outcome (main a w) = inl (Raised "open") /\
  writes (log (main a w)) = [] /\
  generate_calls (log (main a w)) = request_for a g <$> bs /\
  i = Py.len (concat bs).
Proof.
  intros Hs Hl Hopen.
  destruct (main_loop_done _ _ _ _ _ _ _ Hs Hl) as [Ho Hlog].
  assert (Hp : persist a dn d
                 (world (generation_loop a g bs (world (main_setup a w))))
               = MkRun (inl (Raised "open"))
                   (MkWorld
                      (environ (world (generation_loop a g bs (world (main_setup a w)))))
                      (stdout_null (world (generation_loop a g bs (world (main_setup a w)))))
                      r) []).
  { unfold persist. cbn zeta. by stop_ext Hopen. }
  rewrite Hp in *. split; [done|]. rewrite Hlog. split; [|split].
  - by rewrite !writes_app, writes_main_setup, writes_generation_loop.
  - rewrite !generate_calls_app, generate_calls_main_setup. simpl.
    rewrite app_nil_r. unfold generation_loop in *.
    exact (proj2 (loop_generate_calls a g bs (0, []) _) (i, d) Hl).
  - unfold generation_loop in Hl. by apply loop_counter in Hl.
Qed.

End LoopEdges.

(** ** Which shard a rank loads *)

Section Shards.
Context {K F RT Obj : Type} `{EqDecision K} `{!Externals K F RT Obj}.
Implicit Types (a : Args (F:=F)) (w : World (RT:=RT)).

Abbreviation M := (M (K:=K) (F:=F) (RT:=RT) (Obj:=Obj)).

Lemma ascii_compare_spec (c1 c2 : ascii) :
  CompareSpec (N_of_ascii c1 = N_of_ascii c2)
              (N_of_ascii c1 < N_of_ascii c2)%N
              (N_of_ascii c2 < N_of_ascii c1)%N
              (Ascii.compare c1 c2).
Proof. unfold Ascii.compare. apply N.compare_spec. Qed.

Lemma string_compare_trans s1 s2 s3 :
  String.compare s1 s2 <> Gt -> String.compare s2 s3 <> Gt ->
  String.compare s1 s3 <> Gt.
Proof.
  revert s2 s3. induction s1 as [|c1 s1 IH]; intros [|c2 s2] [|c3 s3];
    simpl; try done.
  destruct (ascii_compare_spec c1 c2) as [H12|H12|H12];
    destruct (ascii_compare_spec c2 c3) as [H23|H23|H23];
    destruct (ascii_compare_spec c1 c3) as [H13|H13|H13];
    try done; try lia.
  apply IH.
Qed.

Lemma path_le_trans p q r : Py.path_le p q -> Py.path_le q r -> Py.path_le p r.
Proof.
  unfold Py.path_le, String.leb. intros Hpq Hqr.
  pose proof (string_compare_trans p q r) as Htrans.
  destruct (String.compare p q); destruct (String.compare q r);
    destruct (String.compare p r); try done; exfalso; by apply Htrans.
Qed.

#[local] Instance path_le_transitive : Transitive Py.path_le.
Proof. intros p q r. apply path_le_trans. Qed.

#[local] Instance path_le_total : Total Py.path_le.
Proof. intros p q. apply String.leb_total. Qed.

#[local] Instance path_le_antisymm : AntiSymm (=) Py.path_le.
Proof. intros p q. apply String.leb_antisym. Qed.

(** X5. [sorted] makes the assignment of shards to ranks independent of
    the order in which the file system lists the directory: the sorted
    list is ordered, holds the paths found, and is the same for any
    other listing of the same paths; so rank [lr] gets the same shard. *)
Theorem shard_of_rank_is_canonical (found found' : list string) lr :
  found ≡ₚ found' ->
  StronglySorted Py.path_le (Py.sorted found) /\
  Py.sorted found ≡ₚ found /\
  Py.sorted found = Py.sorted found' /\
  Py.index (Py.sorted found) lr = Py.index (Py.sorted found') lr.
Proof.
  intros Hperm. unfold Py.sorted.
  assert (Heq : merge_sort Py.path_le found = merge_sort Py.path_le found').
  { apply (Sorted_unique Py.path_le).
    - apply Sorted_merge_sort, _.
    - apply Sorted_merge_sort, _.
    - by rewrite !merge_sort_Permutation. }
  split; [apply StronglySorted_merge_sort; apply _|].
  split; [apply merge_sort_Permutation|].
  split; [done|]. by rewrite Heq.
Qed.

Lemma assert_ok c msg w x :
  outcome (assert (K:=K) (F:=F) (Obj:=Obj) c msg w) = inr x ->
  c = true /\ world (assert (K:=K) (F:=F) (Obj:=Obj) c msg w) = w.
Proof. by destruct c. Qed.

Lemma getindex_ok {A} (l : list A) i w x :
  outcome (getindex (K:=K) (F:=F) (Obj:=Obj) l i w) = inr x ->
  Py.index l i = Some x /\ world (getindex (K:=K) (F:=F) (Obj:=Obj) l i w) = w.
Proof.
  unfold getindex. destruct (Py.index l i) as [y|]; [|done].
  by intros [= ->].
Qed.

(** X6. A [load] that returns has found as many shards as [world_size],
    has loaded the one at index [local_rank] of the sorted list into
    the model, and returns the generator built from that model. *)
Theorem load_uses_the_shard_of_its_rank ckpt tok lr ws msl mbs w gen :
  outcome (load ckpt tok lr ws msl mbs w) = inr gen ->
  exists t0 r1 found r2 path checkpoint r3 params r4 tokenizer r5 model r6 r7 r8,
    time_time (rt w) = (Some t0, r1) /\
    glob_pth ckpt r1 = (Some found, r2) /\
    ws = Py.len found /\
    Py.index (Py.sorted found) lr = Some path /\
    torch_load path r2 = (Some checkpoint, r3) /\
    read_params ckpt r3 = (Some params, r4) /\
    Tokenizer tok r4 = (Some tokenizer, r5) /\
    Transformer msl mbs params tokenizer r5 = (Some model, r6) /\
    load_state_dict model checkpoint r6 = (Some tt, r7) /\
    LLaMA model tokenizer r7 = (Some gen, r8).
Proof.
  unfold load. intros Hok.
  apply bind_ok_inv in Hok as (t0 & Ht & Hok & _).
  apply ext_ok in Ht as (r1 & Ht & Hw). rewrite Hw in Hok. clear Hw.
  apply bind_ok_inv in Hok as (found & Hg & Hok & _).
  apply ext_ok in Hg as (r2 & Hg & Hw). rewrite Hw in Hok. clear Hw.
  cbn [rt environ stdout_null] in *.
  apply bind_ok_inv in Hok as (? & Hlen & Hok & _).
  apply assert_ok in Hlen as (Hlen%bool_decide_eq_true & Hw).
  rewrite Hw in Hok. clear Hw.
  apply bind_ok_inv in Hok as (path & Hpath & Hok & _).
  apply getindex_ok in Hpath as (Hpath & Hw). rewrite Hw in Hok. clear Hw.
  apply bind_ok_inv in Hok as (? & _ & Hok & _). rewrite world_print in Hok.
  apply bind_ok_inv in Hok as (checkpoint & Hc & Hok & _).
  apply ext_ok in Hc as (r3 & Hc & Hw). rewrite Hw in Hok. clear Hw.
  apply bind_ok_inv in Hok as (params & Hp & Hok & _).
  apply ext_ok in Hp as (r4 & Hp & Hw). rewrite Hw in Hok. clear Hw.
  apply bind_ok_inv in Hok as (tokenizer & Htok & Hok & _).
  apply ext_ok in Htok as (r5 & Htok & Hw). rewrite Hw in Hok. clear Hw.
  apply bind_ok_inv in Hok as (model & Hm & Hok & _).
  apply ext_ok in Hm as (r6 & Hm & Hw). rewrite Hw in Hok. clear Hw.
  apply bind_ok_inv in Hok as ([] & Hsd & Hok & _).
  apply ext_ok in Hsd as (r7 & Hsd & Hw). rewrite Hw in Hok. clear Hw.
  apply bind_ok_inv in Hok as (gen' & Hgen & Hok & _).
  apply ext_ok in Hgen as (r8 & Hgen & Hw). rewrite Hw in Hok. clear Hw.
  apply bind_ok_inv in Hok as (t1 & _ & Hok & _).
  apply bind_ok_inv in Hok as (? & _ & Hok & _).
  injection Hok as <-.
  cbn [rt environ stdout_null] in *.
  exists t0, r1, found, r2, path, checkpoint, r3, params, r4, tokenizer, r5,
    model, r6, r7, r8.
  repeat split; try done.
  unfold Py.len in *. by rewrite length_sorted in Hlen.
Qed.

End Shards.

(** ** Where the batches come from *)

Section Dataset.
Context {K F RT Obj : Type} `{EqDecision K} `{!Externals K F RT Obj}.
Implicit Types (a : Args (F:=F)) (g : Obj)
  (bs : list (list (Rec (K:=K)))) (w : World (RT:=RT)).

(** X7. The batches of a run are built by the MS MARCO routine exactly when
    the data name is [msmarco_regular] or [msmarco_trec], by the HELM
    routine otherwise; in both cases from the dataset file of [data_id]
    under the fixed root, with the prompt of [p_id] (never the CLI
    [prepend_text]), a tokenizer made from [tokenizer_path], and the CLI
    values [k], [max_seq_len], [num_examples], [max_batch_size] (as the
    batch size) and [num_instances]. *)
Theorem batches_come_from_the_prompt_of_p_id a w g dn bs :
  outcome (main_setup a w) = inr (g, dn, bs) ->
  exists tokenizer files file prompts prompt r0 r0' r1 r1' r2 r2' r3 r3' r4 r4',
    Tokenizer (tokenizer_path a) r0 = (Some tokenizer, r0') /\
    helm_dataset_map r1 = (Some files, r1') /\
    files !! data_id a = Some file /\
    get_prompt_map r2 = (Some prompts, r2') /\
    prompts !! p_id a = Some prompt /\
    get_helm_data_name file r3 = (Some dn, r3') /\
    (if bool_decide (dn ∈ ["msmarco_regular"; "msmarco_trec"])
     then get_msmacro_data_list else get_helm_data_list)
      (dataset_root ++ "/" ++ file)%string prompt (k a) tokenizer
      (max_seq_len a) (num_examples a) (max_batch_size a) (num_instances a) r4
    = (Some bs, r4').
Proof.
  unfold main_setup. intros Hok.
  apply bind_ok_inv in Hok as ([lr ws] & _ & Hok & _).
  apply bind_ok_inv in Hok as (? & _ & Hok & _).
  apply bind_ok_inv in Hok as (? & _ & Hok & _).
  apply bind_ok_inv in Hok as (? & _ & Hok & _).
  apply bind_ok_inv in Hok as (g' & _ & Hok & _).
  apply bind_ok_inv in Hok as (tokenizer & Htok & Hok & _).
  apply bind_ok_inv in Hok as (file & Hfile & Hok & _).
  apply bind_ok_inv in Hok as (prompt & Hprompt & Hok & _).
  cbn zeta in Hok.
  apply bind_ok_inv in Hok as (dn' & Hdn & Hok & _).
  apply bind_ok_inv in Hok as (bs' & Hbs & Hok & _).
  apply bind_ok_inv in Hok as (? & _ & Hok & _).
  apply bind_ok_inv in Hok as (? & _ & Hok & _).
  apply bind_ok_inv in Hok as (ms & _ & Hok & _).
  apply bind_ok_inv in Hok as (? & _ & Hok & _).
  injection Hok as <- <- <-.
  apply ext_ok in Htok as (r0' & Htok & _).
  apply lookup_map_ok in Hfile as (files & r1' & Hfiles & Hfile).
  apply lookup_map_ok in Hprompt as (prompts & r2' & Hprompts & Hprompt).
  apply ext_ok in Hdn as (r3' & Hdn & _).
  assert (exists r4 r4',
             (if bool_decide (dn' ∈ ["msmarco_regular"; "msmarco_trec"])
              then get_msmacro_data_list else get_helm_data_list)
               (dataset_root ++ "/" ++ file)%string prompt (k a) tokenizer
               (max_seq_len a) (num_examples a) (max_batch_size a)
               (num_instances a) r4 = (Some bs', r4')) as (r4 & r4' & Hlist).
  { destruct (bool_decide (dn' ∈ ["msmarco_regular"; "msmarco_trec"]));
      apply ext_ok in Hbs as (r4' & Hbs & _); by eexists _, _. }
  by eexists tokenizer, files, file, prompts, prompt, _, r0', _, r1', _, r2',
    _, r3', r4, r4'.
Qed.

End Dataset.

(** ** What the truncation keeps *)

Section TruncationMore.

(** X14. The text stored is a prefix of the isolated output, cutting it
    again changes nothing, and an output that starts with a line feed
    is stored as the empty string. *)
Theorem truncation_keeps_a_prefix out :
  (exists rest, out = (truncate_at_newline out ++ rest)%string) /\
  truncate_at_newline (truncate_at_newline out) = truncate_at_newline out /\
  (String.length (truncate_at_newline out) <= String.length out)%nat /\
  (forall rest, truncate_at_newline (Py.newline ++ rest)%string = "").
Proof.
  assert (Hprefix : exists rest, out = (truncate_at_newline out ++ rest)%string).
  { destruct (Py.mem_char Py.LF out) eqn:Hm.
    - destruct (truncate_first_newline out) as (pre & post & Hout & _ & Hcut).
      { unfold newline_free. congruence. }
      exists (Py.newline ++ post)%string. by rewrite Hcut.
    - exists "". rewrite (truncate_no_newline out Hm).
      clear Hm. induction out as [|c out IH]; [done|].
      change (String c out = String c (out ++ "")%string). by rewrite <- IH. }
  split; [done|]. split; [|split].
  - apply truncate_no_newline, truncate_newline_free.
  - destruct Hprefix as [rest Hrest]. rewrite Hrest at 2.
    rewrite length_app_string. lia.
  - intros rest.
    destruct (truncate_first_newline (Py.newline ++ rest)%string)
      as (pre & post & Hout & Hpre & ->); [done|].
    destruct pre as [|c pre]; [done|].
    injection Hout as <- _. done.
Qed.

End TruncationMore.

(** ** The further properties on the concrete deployment *)

Section MoreWitnesses.

Lemma model_size_is_required_witness :
  (exists e, outcome (main Demo.args Demo.world_without_model_size) = inl e) /\
  generate_calls (log (main Demo.args Demo.world_without_model_size)) = [] /\
  writes (log (main Demo.args Demo.world_without_model_size)) = [].
Proof.
  apply (model_size_is_required Demo.args Demo.world_without_model_size).
  vm_compute. reflexivity.
Defined.

Lemma unparsable_rank_is_value_error_witness :
  main Demo.args (Demo.world0 "zero")
  = MkRun (inl ValueError) (Demo.world0 "zero") [].
Proof.
  apply (proj1 (unparsable_rank_is_value_error Demo.args (Demo.world0 "zero") "zero")).
  - vm_compute. reflexivity.
  - vm_compute. reflexivity.
Defined.

Lemma exceptions_of_main_witness :
  exists found ws,
    "Loading a checkpoint for MP=2 but world size is 3"
    = shard_mismatch_msg found ws /\ found <> ws.
Proof.
  apply (exceptions_of_main Demo.args Demo.world_three_ranks
           (AssertionError "Loading a checkpoint for MP=2 but world size is 3")).
  vm_compute. reflexivity.
Defined.

Lemma shard_lookup_fails_iff_out_of_range_witness :
  outcome (load "/ckpt/7B" "/ckpt/tokenizer.model" 2 2 2048 2 (Demo.world0 "0"))
  = inl IndexError.
Proof.
  assert (Ht : time_time (rt (Demo.world0 "0")) = (Some 0, 0%nat)) by reflexivity.
  assert (Hg : glob_pth "/ckpt/7B" 0%nat
               = (Some ["/ckpt/7B/consolidated.01.pth";
                        "/ckpt/7B/consolidated.00.pth"], 0%nat)) by reflexivity.
  apply (proj2 (shard_lookup_fails_iff_out_of_range
                  "/ckpt/7B" "/ckpt/tokenizer.model" 2 2 2048 2 _ _ _ _ _
                  Ht Hg eq_refl)).
  lia.
Defined.

Lemma shard_of_rank_is_canonical_witness :
  Py.index (Py.sorted ["b.pth"; "a.pth"]) 0
  = Py.index (Py.sorted ["a.pth"; "b.pth"]) 0.
Proof.
  apply (shard_of_rank_is_canonical ["b.pth"; "a.pth"] ["a.pth"; "b.pth"] 0).
  apply perm_swap.
Defined.

Lemma batches_come_from_the_prompt_of_p_id_witness :
  exists tokenizer files file prompts prompt r0 r0' r1 r1' r2 r2' r3 r3' r4 r4',
    Tokenizer (tokenizer_path Demo.args) r0 = (Some tokenizer, r0') /\
    helm_dataset_map r1 = (Some files, r1') /\
    files !! data_id Demo.args = Some file /\
    get_prompt_map r2 = (Some prompts, r2') /\
    prompts !! p_id Demo.args = Some prompt /\
    get_helm_data_name file r3 = (Some "boolq", r3') /\
    (if bool_decide ("boolq" ∈ ["msmarco_regular"; "msmarco_trec"])
     then get_msmacro_data_list else get_helm_data_list)
      (dataset_root ++ "/" ++ file)%string prompt (k Demo.args) tokenizer
      (max_seq_len Demo.args) (num_examples Demo.args)
      (max_batch_size Demo.args) (num_instances Demo.args) r4
    = (Some Demo.batches, r4').
Proof.
  apply (batches_come_from_the_prompt_of_p_id Demo.args (Demo.world0 "0")
           "generator" "boolq" Demo.batches).
  vm_compute. reflexivity.
Defined.

Lemma keys_in_order_of_first_occurrence_witness :
  exists pairs,
    occurrences Demo.args "generator" Demo.batches
      (rt (world (main_setup Demo.args (Demo.world0 "0")))) = Some pairs /\
    Py.keys Demo.written_dict = first_seen pairs.*1 /\
    (forall id, Py.getitem Demo.written_dict id = last_text pairs id) /\
    (forall id v,
       (id, v) ∈ Demo.written_dict <->
       exists before after,
         pairs = before ++ (id, v) :: after /\ id ∉ after.*1) /\
    (one_output_per_prompt ->
     Py.keys Demo.written_dict = first_seen (ids_seen Demo.batches)).
Proof.
  apply (keys_in_order_of_first_occurrence Demo.args (Demo.world0 "0")
           "generator" "boolq" Demo.batches Demo.written_path).
  - vm_compute. reflexivity.
  - vm_compute. apply list_elem_of_here.
Defined.

Lemma mapping_holds_only_batch_ids_witness :
  NoDup (Py.keys Demo.written_dict) /\
  (forall id, id ∈ Py.keys Demo.written_dict -> id ∈ ids_seen Demo.batches) /\
  (length Demo.written_dict <= length (ids_seen Demo.batches))%nat.
Proof.
  apply (mapping_holds_only_batch_ids Demo.args (Demo.world0 "0")
           "generator" "boolq" Demo.batches Demo.written_path).
  - vm_compute. reflexivity.
  - vm_compute. apply list_elem_of_here.
Defined.

Lemma load_uses_the_shard_of_its_rank_witness :
  exists t0 r1 found r2 path checkpoint r3 params r4 tokenizer r5 model r6 r7 r8,
    time_time (rt (Demo.world0 "0")) = (Some t0, r1) /\
    glob_pth "/ckpt/7B" r1 = (Some found, r2) /\
    2 = Py.len found /\
    Py.index (Py.sorted found) 1 = Some path /\
    torch_load path r2 = (Some checkpoint, r3) /\
    read_params "/ckpt/7B" r3 = (Some params, r4) /\
    Tokenizer "/ckpt/tokenizer.model" r4 = (Some tokenizer, r5) /\
    Transformer 2048 2 params tokenizer r5 = (Some model, r6) /\
    load_state_dict model checkpoint r6 = (Some tt, r7) /\
    LLaMA model tokenizer r7 = (Some "generator", r8).
Proof.
  apply (load_uses_the_shard_of_its_rank
           "/ckpt/7B" "/ckpt/tokenizer.model" 1 2 2048 2 (Demo.world0 "0")).
  vm_compute. reflexivity.
Defined.

Lemma no_first_result_is_index_error_witness :
  outcome (main (Externals0:=Demo.externals_with Demo.batches_empty_first true)
             Demo.args (Demo.world0 "0")) = inl IndexError /\
  writes (log (main (Externals0:=Demo.externals_with Demo.batches_empty_first true)
                 Demo.args (Demo.world0 "0"))) = [] /\
  generate_calls
    (log (main (Externals0:=Demo.externals_with Demo.batches_empty_first true)
            Demo.args (Demo.world0 "0")))
  = [("generator", [], 100, 0, 1)].
Proof.
  apply (no_first_result_is_index_error
           (Externals0:=Demo.externals_with Demo.batches_empty_first true)
           Demo.args (Demo.world0 "0") "generator" "boolq" []
           [[ {| input := "Q3"; instance_id := "x" |} ]] 1%nat).
  - vm_compute. reflexivity.
  - vm_compute. reflexivity.
Defined.

Lemma empty_dataset_writes_empty_mapping_witness :
  outcome (main (Externals0:=Demo.externals_with [] true)
             Demo.args (Demo.world0 "0")) = inr tt /\
  writes (log (main (Externals0:=Demo.externals_with [] true)
                 Demo.args (Demo.world0 "0")))
  = [(output_path "boolq" (p_id Demo.args) (k Demo.args)
        (num_instances Demo.args), [])] /\
  generate_calls (log (main (Externals0:=Demo.externals_with [] true)
                         Demo.args (Demo.world0 "0"))) = [].
Proof.
  apply (empty_dataset_writes_empty_mapping
           (Externals0:=Demo.externals_with [] true)
           Demo.args (Demo.world0 "0") "generator" "boolq" 0%nat).
  - vm_compute. reflexivity.
  - vm_compute. reflexivity.
Defined.

Lemma unwritable_output_loses_the_mapping_witness :
  outcome (main (Externals0:=Demo.externals_with Demo.batches false)
             Demo.args (Demo.world0 "0")) = inl (Raised "open") /\
  writes (log (main (Externals0:=Demo.externals_with Demo.batches false)
                 Demo.args (Demo.world0 "0"))) = [] /\
  generate_calls (log (main (Externals0:=Demo.externals_with Demo.batches false)
                         Demo.args (Demo.world0 "0")))
  = request_for Demo.args "generator" <$> Demo.batches /\
  3 = Py.len (concat Demo.batches).
Proof.
  apply (unwritable_output_loses_the_mapping
           (Externals0:=Demo.externals_with Demo.batches false)
           Demo.args (Demo.world0 "0") "generator" "boolq" Demo.batches
           3 Demo.written_dict 2%nat).
  - vm_compute. reflexivity.
  - vm_compute. reflexivity.
  - vm_compute. reflexivity.
Defined.

Lemma demo_with_one_output_per_prompt data writable :
  one_output_per_prompt (Externals0:=Demo.externals_with data writable).
Proof.
  split.
  - intros g ps n t p r results r' [= <- _]. apply length_fmap.
  - intros ps results r outputs r' Hlen [= <- _].
    rewrite length_zip_with. lia.
Qed.

Lemma unique_ids_one_entry_per_record_witness :
  occurrences (Externals0:=Demo.externals_with Demo.batches_unique true)
    Demo.args "generator" Demo.batches_unique
    (rt (world (main_setup (Externals0:=Demo.externals_with Demo.batches_unique true)
                  Demo.args (Demo.world0 "0"))))
  = Some [("x", " re:Q1"); ("y", " re:Q2"); ("z", " re:Q3")] /\
  Py.keys [("x", " re:Q1"); ("y", " re:Q2"); ("z", " re:Q3")]
  = ids_seen Demo.batches_unique /\
  length [("x", " re:Q1"); ("y", " re:Q2"); ("z", " re:Q3")]
  = length (ids_seen Demo.batches_unique).
Proof.
  apply (unique_ids_one_entry_per_record
           (Externals0:=Demo.externals_with Demo.batches_unique true)
           Demo.args (Demo.world0 "0") "generator" "boolq" Demo.batches_unique
           Demo.written_path).
  - apply demo_with_one_output_per_prompt.
  - apply (bool_decide_unpack _). by vm_compute.
  - vm_compute. reflexivity.
  - vm_compute. apply list_elem_of_here.
Defined.

End MoreWitnesses.
